(** * cdn-private: the upload endpoint of [app/main.py]

    A shallow embedding of the upload service: the helpers
    [sanitize_segment] and [compress_image] and the request handler
    [upload_image], with the file system, the clock, the random source and
    the imaging library made explicit. *)

From Stdlib Require Import ZArith List Ascii String Bool Lia.
From Equations Require Import Equations.
From stdpp Require Import base strings gmap.

Local Open Scope string_scope.
Local Open Scope Z_scope.

(** ** Python strings

    A Python [str] is modelled by a Rocq [string] whose characters are
    the code points 0..255; the classification and case tables below are
    the ones of CPython on that range. *)
Module PyStr.

Definition code (c : ascii) : N := N_of_ascii c.

Definition in_range (lo hi : N) (c : ascii) : bool :=
  ((lo <=? code c) && (code c <=? hi))%N.

Definition is_ascii_digit (c : ascii) : bool := in_range 48 57 c.
Definition is_ascii_upper (c : ascii) : bool := in_range 65 90 c.
Definition is_ascii_lower (c : ascii) : bool := in_range 97 122 c.

(** Code points 128..255 for which [str.isalnum] holds: the letters
    and the superscript digits and vulgar fractions. *)
Definition is_high_alnum (c : ascii) : bool :=
  existsb (N.eqb (code c)) [170; 178; 179; 181; 185; 186; 188; 189; 190]%N
  || in_range 192 214 c || in_range 216 246 c || in_range 248 255 c.

(** [c.isalnum()] for a one-character string. *)
Definition isalnum_char (c : ascii) : bool :=
  is_ascii_digit c || is_ascii_upper c || is_ascii_lower c || is_high_alnum c.

Definition chars (s : string) : list ascii := list_ascii_of_string s.

(** [s.isalnum()]: every character is alphanumeric and there is at
    least one character. *)
Definition isalnum (s : string) : bool :=
  match chars s with
  | [] => false
  | cs => forallb isalnum_char cs
  end.

(** [s.replace(c, "")] for a one-character [c]. *)
Fixpoint remove_char (c : ascii) (s : string) : string :=
  match s with
  | EmptyString => EmptyString
  | String d r =>
      if Ascii.eqb d c then remove_char c r else String d (remove_char c r)
  end.

(** [c in s] for a one-character [c]. *)
Fixpoint contains (c : ascii) (s : string) : bool :=
  match s with
  | EmptyString => false
  | String d r => Ascii.eqb d c || contains c r
  end.

(** [s.split(c)[-1]]: the text after the last occurrence of [c], the
    whole string when there is none. *)
Fixpoint last_field (c : ascii) (s : string) : string :=
  match s with
  | EmptyString => EmptyString
  | String d r =>
      if Ascii.eqb d c then last_field c r
      else if contains c r then last_field c r
      else s
  end.

Definition lower_char (c : ascii) : ascii :=
  if is_ascii_upper c || in_range 192 214 c || in_range 216 222 c
  then ascii_of_N (code c + 32)
  else c.

(** [s.startswith(c)] and [s.endswith(c)] for a one-character [c]. *)
Definition startswith (c : ascii) (s : string) : bool :=
  match s with
  | EmptyString => false
  | String d _ => Ascii.eqb d c
  end.

Fixpoint endswith (c : ascii) (s : string) : bool :=
  match s with
  | EmptyString => false
  | String d EmptyString => Ascii.eqb d c
  | String _ r => endswith c r
  end.

(** [s.lower()] on this range, where it works character by character.
    (Beyond code point 255 [str.lower] looks at the neighbours of a
    character, as for the Greek final sigma; such names are outside this
    model.) *)
Fixpoint lower (s : string) : string :=
  match s with
  | EmptyString => EmptyString
  | String d r => String (lower_char d) (lower r)
  end.

(** Decimal digits of a natural number, as [str(n)] prints them. *)
Definition digit (n : Z) : ascii := ascii_of_N (48 + Z.to_N n).

Fixpoint dec_digits (fuel : nat) (n : Z) (acc : string) : string :=
  match fuel with
  | O => acc
  | S f =>
      let acc' := String (digit (n mod 10)) acc in
      if n / 10 =? 0 then acc' else dec_digits f (n / 10) acc'
  end.

(** [str(n)] for an integer [n]. *)
Definition str_int (n : Z) : string :=
  if n <? 0 then String "-" (dec_digits (S (Z.to_nat (Z.log2 (- n)))) (- n) "")
  else dec_digits (S (Z.to_nat (Z.log2 n))) n "".

(** ["%02d" % n] and ["%04d" % n] for [0 <= n]: zero padding on the
    left up to the width. *)
Fixpoint zeros (k : nat) : string :=
  match k with O => "" | S k' => String "0" (zeros k') end.

Definition zfill (width : nat) (s : string) : string :=
  zeros (width - String.length s) +:+ s.

End PyStr.

(** ** Exceptions and results *)

Inductive exn : Type :=
| HTTPException (status_code : Z) (detail : string)
| UnidentifiedImageError
| UnboundLocalError
| OSError.

Inductive result (A : Type) : Type :=
| Ok (a : A)
| Raise (e : exn).
Arguments Ok {A} a.
Arguments Raise {A} e.

(** ** Helpers *)

Definition sanitize_segment (value : string) : result string :=
  if negb (PyStr.isalnum (PyStr.remove_char "-" (PyStr.remove_char "_" value)))
  then Raise (HTTPException 400 "Invalid folder name")
  else Ok value.


(** ** The imaging library

    What [compress_image] uses of PIL: opening a payload, the colour
    mode, the conversion to another mode, and the JPEG encoder
    [img.save(buffer, format="JPEG", optimize=True, quality=q)], whose
    output is the content of a fresh buffer. Each of the three calls can
    raise: [Image.open] on bytes that are no image, [convert] and [save]
    on pixel data that cannot be read, [save] also on a mode that JPEG
    cannot hold. *)

Definition bytes : Type := list Byte.byte.

Class Imaging : Type := {
  image : Type;
  Image_open : bytes -> result image;
  mode : image -> string;
  convert : image -> string -> result image;
  save_JPEG : image -> Z -> result bytes
}.

(** [buffer.tell()] after the encoder wrote into the fresh buffer. *)
Definition tell (buffer : bytes) : Z := Z.of_nat (List.length buffer).

Section Compress.
Context `{Imaging}.
Variable MAX_SIZE : Z.

(** One pass through the loop body with the encoding [saved] that
    [img.save] left in the fresh buffer, or its error. *)
Definition loop_step (quality : Z) (saved : result bytes)
    (rest : bytes -> list Z * result bytes) : list Z * result bytes :=
  match saved with
  | Raise ex => ([quality], Raise ex)
  | Ok data =>
      if tell data <=? MAX_SIZE then ([quality], Ok data)
      else let r := rest data in (quality :: r.1, r.2)
  end.

(** The [while quality > 40] loop of [compress_image], from the loop
    head with the current [quality] and the buffer of the previous
    iteration ([None] before the first one). The first component lists
    the qualities handed to the encoder, in order; the second is what
    the function returns or raises. *)
Equations? compress_loop (img : image) (quality : Z) (buffer : option bytes)
  : list Z * result bytes by wf (Z.to_nat (quality - 40)) lt :=
  compress_loop img quality buffer with decide (quality > 40) => {
    | left _ :=
        loop_step quality (save_JPEG img quality)
          (fun data => compress_loop img (quality - 5) (Some data))
    | right _ :=
        ([], match buffer with
             | Some b => Ok b
             | None => Raise UnboundLocalError
             end) }.
Proof. lia. Qed.

Definition compress_image_trace (image_bytes : bytes) : list Z * result bytes :=
  match Image_open image_bytes with
  | Raise ex => ([], Raise ex)
  | Ok img =>
      match (if bool_decide (mode img ∈ ["RGBA"; "P"]) then convert img "RGB"
             else Ok img) with
      | Raise ex => ([], Raise ex)
      | Ok img => compress_loop img 85 None
      end
  end.

Definition compress_image (image_bytes : bytes) : result bytes :=
  (compress_image_trace image_bytes).2.

End Compress.

(** ** Configuration

    The module-level tables. [BASE_DIR], the credentials and the public
    base URLs come from the process environment and are [None] when the
    variable is unset; [MAX_UPLOAD_SIZE] is the integer read from the
    environment, 500 by default. *)

Record config : Type := {
  BASE_DIR : option string;
  MAX_UPLOAD_SIZE : Z;
  CDN_URL_MAP : gmap string (option string);
  ALLOWED_KEYS : gmap string (option string);
  ALLOWED_CATEGORIES : gmap string (list string)
}.

(** KB to bytes. *)
Definition MAX_SIZE (cfg : config) : Z := MAX_UPLOAD_SIZE cfg * 1024.

(** The tables as [main.py] builds them from the environment. *)
Definition main_config (getenv : string -> option string) (max_upload_size : Z)
  : config :=
  {| BASE_DIR := getenv "CDN_BASE_DIR";
     MAX_UPLOAD_SIZE := max_upload_size;
     CDN_URL_MAP :=
       <["ukaisyndrome" := getenv "CDN_URL_UKAISYNDROME"]>
       (<["absensi-berkah" := getenv "CDN_URL_ABSENSIBERKAH"]> ∅);
     ALLOWED_KEYS :=
       <["ukaisyndrome" := getenv "API_KEY_UKAISYNDROME"]>
       (<["absensi-berkah" := getenv "API_KEY_ABSENSIBERKAH"]> ∅);
     ALLOWED_CATEGORIES :=
       <["ukaisyndrome" := ["tryout"; "materi"]]>
       (<["absensi-berkah" := ["wajah"; "sakit"; "izin"; "lembur"]]> ∅) |}.

(** Truth value of an optional string: [None] and the empty string are
    falsy. *)
Definition truthy (o : option string) : bool :=
  match o with
  | Some s => negb (String.eqb s "")
  | None => false
  end.

(** How an f-string renders an optional string. *)
Definition fstr (o : option string) : string :=
  match o with
  | Some s => s
  | None => "None"
  end.

(** ** Clock and random source *)

Record datetime : Type := {
  dt_year : Z; dt_month : Z; dt_day : Z;
  dt_hour : Z; dt_minute : Z; dt_second : Z
}.

(** The ranges of a [datetime] value. *)
Definition valid_datetime (d : datetime) : Prop :=
  1 <= dt_year d <= 9999 /\ 1 <= dt_month d <= 12 /\ 1 <= dt_day d <= 31 /\
  0 <= dt_hour d <= 23 /\ 0 <= dt_minute d <= 59 /\ 0 <= dt_second d <= 59.

Definition pad (width : nat) (n : Z) : string := PyStr.zfill width (PyStr.str_int n).

(** [now.strftime("%Y%m%d_%H%M%S")]. *)
Definition strftime (d : datetime) : string :=
  pad 4 (dt_year d) +:+ pad 2 (dt_month d) +:+ pad 2 (dt_day d) +:+ "_" +:+
  pad 2 (dt_hour d) +:+ pad 2 (dt_minute d) +:+ pad 2 (dt_second d).

Module UUID.

(** [uuid.uuid4()] from the 128 bits of [os.urandom(16)]: the variant
    and version fields are overwritten, the other 122 bits are kept. *)
Definition uuid4 (random : Z) : Z :=
  let i := random mod 2 ^ 128 in
  let i := Z.land i (Z.lnot (Z.shiftl 0xc000 48)) in
  let i := Z.lor i (Z.shiftl 0x8000 48) in
  let i := Z.land i (Z.lnot (Z.shiftl 0xf000 64)) in
  Z.lor i (Z.shiftl 4 76).

Definition hex_digit (n : Z) : ascii :=
  if n <? 10 then ascii_of_N (48 + Z.to_N n) else ascii_of_N (87 + Z.to_N n).

(** ['%0kx' % n], for [n] below [16 ^ k]. *)
Fixpoint hex (k : nat) (n : Z) : string :=
  match k with
  | O => ""
  | S k' => hex k' (n / 16) +:+ String (hex_digit (n mod 16)) ""
  end.

(** [str(u)]: 32 hexadecimal digits in groups of 8-4-4-4-12. *)
Definition str (u : Z) : string :=
  let h := hex 32 u in
  substring 0 8 h +:+ "-" +:+ substring 8 4 h +:+ "-" +:+ substring 12 4 h
  +:+ "-" +:+ substring 16 4 h +:+ "-" +:+ substring 20 12 h.

End UUID.

(** What one request meets in its environment: the clock at step 6
    ([datetime.now().year]), the clock at step 9 ([datetime.now()]), the
    random bits drawn by [uuid.uuid4()], whether the operating system
    refuses [os.makedirs] or [open] (no permission, no space, a file in
    the way), and the number of bytes the storage device still takes
    ([None] when it takes them all). *)
Record env : Type := {
  clock_year : datetime;
  clock_stamp : datetime;
  urandom : Z;
  makedirs_fails : bool;
  open_fails : bool;
  disk_room : option nat
}.

(** ** File system *)

Record world : Type := {
  dirs : gset string;
  files : gmap string bytes
}.

(** [os.path.join(a, b)]. *)
Definition path_join (a b : string) : string :=
  if PyStr.startswith "/" b then b
  else if String.eqb a "" || PyStr.endswith "/" a then a +:+ b
  else a +:+ "/" +:+ b.

(** ** Requests and responses *)

Record UploadFile : Type := {
  filename : string;
  content : bytes
}.

Record response : Type := {
  status : bool;
  url : string;
  size : Z;
  file : string
}.

(** ** The handler monad: the file system is threaded through, an
    exception ends the request. *)

Definition M (A : Type) : Type := world -> world * result A.

Definition ret {A : Type} (a : A) : M A := fun w => (w, Ok a).

Definition raise {A : Type} (e : exn) : M A := fun w => (w, Raise e).

Definition bind {A B : Type} (m : M A) (k : A -> M B) : M B :=
  fun w =>
    match m w with
    | (w', Ok a) => k a w'
    | (w', Raise e) => (w', Raise e)
    end.

Definition lift {A : Type} (r : result A) : M A := fun w => (w, r).

Notation "x <~ m ;; k" := (bind m (fun x => k))
  (at level 100, m at next level, right associativity).
Notation "m ;;; k" := (bind m (fun _ => k))
  (at level 100, right associativity).

(** [os.makedirs(folder, exist_ok=True)]; directories are recorded under
    the path they were asked for. When the operating system refuses, the
    call raises and the folder is not there. *)
Definition makedirs (refused : bool) (folder : string) : M unit :=
  fun w =>
    if refused then (w, Raise OSError)
    else ({| dirs := {[folder]} ∪ dirs w; files := files w |}, Ok tt).

(** The directory part of a path: the text up to and including its last
    separator, empty when it has none. *)
Fixpoint parent_dir (path : string) : string :=
  match path with
  | EmptyString => EmptyString
  | String c r =>
      if PyStr.contains "/" r then String c (parent_dir r)
      else if Ascii.eqb c "/" then String c EmptyString
      else EmptyString
  end.

(** The directory of [filepath] is there: it is the working directory
    or a directory that exists. *)
Definition directory_exists (w : world) (filepath : string) : bool :=
  String.eqb (parent_dir filepath) "" || bool_decide (parent_dir filepath ∈ dirs w).

(** [open(filepath, "wb")] finds a place for the file: the directory of
    [filepath] is there and [filepath] does not name a directory. *)
Definition openable (w : world) (filepath : string) : bool :=
  directory_exists w filepath
  && negb (PyStr.endswith "/" filepath)
  && negb (bool_decide (filepath ∈ dirs w))
  && negb (bool_decide (filepath +:+ "/" ∈ dirs w)).

(** What of [data] reaches the device when the write cannot complete:
    the first [room] bytes. [None] when all of [data] goes through. *)
Definition cut_short (room : option nat) (data : bytes) : option bytes :=
  match room with
  | Some k => if (k <? List.length data)%nat then Some (take k data) else None
  | None => None
  end.

(** [with open(filepath, "wb") as f: f.write(data)]. [open] raises, and
    leaves no file, when the operating system refuses, when the directory
    of [filepath] does not exist or when [filepath] is a directory;
    otherwise it creates or truncates the file at [filepath] and [write]
    fills it; when the device gives out the write raises and the file
    stays as far as it got. *)
Definition write_file (refused : bool) (room : option nat) (filepath : string)
    (data : bytes) : M unit :=
  fun w =>
    if refused || negb (openable w filepath) then (w, Raise OSError)
    else
      match cut_short room data with
      | Some written =>
          ({| dirs := dirs w; files := <[filepath := written]> (files w) |},
           Raise OSError)
      | None =>
          ({| dirs := dirs w; files := <[filepath := data]> (files w) |}, Ok tt)
      end.

(** ** The upload handler *)

Section Upload.
Context `{Imaging}.
Variable cfg : config.
Variable e : env.

(** Step 7: the extension taken from the file name. *)
Definition extension (name : string) : string :=
  if PyStr.contains "." name then PyStr.lower (PyStr.last_field "." name)
  else "jpg".

(** Step 8: re-encode or pass through; the processed bytes and the
    final extension. *)
Definition process (ext : string) (original_bytes : bytes) : result (bytes * string) :=
  if bool_decide (ext ∈ ["jpg"; "jpeg"; "png"]) then
    match compress_image (MAX_SIZE cfg) original_bytes with
    | Ok processed => Ok (processed, "jpg")
    | Raise ex => Raise ex
    end
  else Ok (original_bytes, ext).

(** Step 6: the folder of a tenant and category in a year. *)
Definition folder_of (service_name : string) (year : Z) (category : string) : string :=
  fstr (BASE_DIR cfg) +:+ "/" +:+ service_name +:+ "/" +:+ PyStr.str_int year
  +:+ "/" +:+ category +:+ "/".

(** Step 9: the generated file name. *)
Definition unique_name (final_ext : string) : string :=
  strftime (clock_stamp e) +:+ "_" +:+ UUID.str (UUID.uuid4 (urandom e))
  +:+ "." +:+ final_ext.

Definition upload_image (service_name category : string) (file : UploadFile)
    (api_key : option string) : M response :=
  (* 1. the API key is required *)
  if negb (truthy api_key) then raise (HTTPException 403 "API key required") else
  (* 2. the service must be known *)
  match ALLOWED_KEYS cfg !! service_name with
  | None => raise (HTTPException 403 "Invalid service")
  | Some key =>
  (* 3. the API key must be the service's *)
  if negb (bool_decide (api_key = key)) then
    raise (HTTPException 403 "Unauthorized API key") else
  (* 4. the category must be allowed *)
  if negb (bool_decide (category ∈ default [] (ALLOWED_CATEGORIES cfg !! service_name)))
  then raise (HTTPException 400 "Invalid category") else
  (* 5. sanitize *)
  service_name <~ lift (sanitize_segment service_name) ;;
  category <~ lift (sanitize_segment category) ;;
  (* 6. folder *)
  let year := dt_year (clock_year e) in
  let folder := folder_of service_name year category in
  makedirs (makedirs_fails e) folder ;;;
  (* 7. read the file *)
  let original_bytes := content file in
  let ext := extension (filename file) in
  (* 8. process the image *)
  p <~ lift (process ext original_bytes) ;;
  let processed := p.1 in
  let final_ext := p.2 in
  (* 9. final file name *)
  let unique := unique_name final_ext in
  let filepath := path_join folder unique in
  (* 10. save *)
  write_file (open_fails e) (disk_room e) filepath processed ;;;
  (* 11. final URL *)
  let cdn_base_url := default None (CDN_URL_MAP cfg !! service_name) in
  if negb (truthy cdn_base_url) then
    raise (HTTPException 500 "CDN URL not configured") else
  ret {| status := true;
         url := fstr cdn_base_url +:+ "/" +:+ service_name +:+ "/"
                +:+ PyStr.str_int year +:+ "/" +:+ category +:+ "/" +:+ unique;
         size := Z.of_nat (List.length processed);
         file := unique |}
  end.

End Upload.

(** ** A stand-in imaging library for the examples

    It reads of a PNG file what decides the course of [compress_image]:
    the signature and, in the header, the bit depth 8 and the colour
    type, which gives the mode as PIL reports it (grey L, true colour
    RGB, palette P, grey with alpha LA, true colour with alpha RGBA).
    Anything else is no image. The encoder writes the modes that JPEG
    holds, as [q] percent of the payload length in zero bytes, and raises
    on the others. *)

Record stub_image : Type := {
  stub_mode : string;
  stub_data : bytes
}.

Definition hex_value (c : ascii) : N :=
  let n := N_of_ascii c in
  if (n <? 58)%N then (n - 48)%N else (n - 87)%N.

(** [bytes.fromhex(s)] for lower-case digits. *)
Fixpoint fromhex (s : string) : bytes :=
  match s with
  | String a (String b r) =>
      match Byte.of_N (16 * hex_value a + hex_value b) with
      | Some x => x :: fromhex r
      | None => fromhex r
      end
  | _ => []
  end.

Definition png_signature : list N := [137; 80; 78; 71; 13; 10; 26; 10]%N.

Definition png_mode (b : bytes) : option string :=
  let codes := List.map Byte.to_N b in
  if bool_decide (take 8 codes = png_signature) then
    match codes !! 24%nat, codes !! 25%nat with
    | Some 8%N, Some 0%N => Some "L"
    | Some 8%N, Some 2%N => Some "RGB"
    | Some 8%N, Some 3%N => Some "P"
    | Some 8%N, Some 4%N => Some "LA"
    | Some 8%N, Some 6%N => Some "RGBA"
    | _, _ => None
    end
  else None.

Definition stub_open (b : bytes) : result stub_image :=
  match png_mode b with
  | Some m => Ok {| stub_mode := m; stub_data := b |}
  | None => Raise UnidentifiedImageError
  end.

Definition stub_convert (img : stub_image) (m : string) : result stub_image :=
  Ok {| stub_mode := m; stub_data := stub_data img |}.

Definition stub_encoding (data : bytes) (q : Z) : bytes :=
  repeat Byte.x00 (Z.to_nat (Z.of_nat (List.length data) * q / 100)).

Definition stub_save (img : stub_image) (q : Z) : result bytes :=
  if bool_decide (stub_mode img ∈ ["L"; "RGB"]) then Ok (stub_encoding (stub_data img) q)
  else Raise OSError.

Definition stub_imaging : Imaging :=
  {| image := stub_image;
     Image_open := stub_open;
     mode := stub_mode;
     convert := stub_convert;
     save_JPEG := stub_save |}.

Definition empty_world : world := {| dirs := ∅; files := ∅ |}.

(** An environment for [main.py]'s tenant table; the base URL of
    absensi-berkah is left unset. *)
Definition demo_getenv (name : string) : option string :=
  if String.eqb name "CDN_BASE_DIR" then Some "/srv/cdn"
  else if String.eqb name "CDN_URL_UKAISYNDROME" then Some "https://cdn.ukai.example"
  else if String.eqb name "API_KEY_UKAISYNDROME" then Some "k-ukai"
  else if String.eqb name "API_KEY_ABSENSIBERKAH" then Some "k-absen"
  else None.

Definition demo_config : config := main_config demo_getenv 1.

Definition demo_env : env :=
  {| clock_year := {| dt_year := 2025; dt_month := 3; dt_day := 9;
                      dt_hour := 14; dt_minute := 5; dt_second := 7 |};
     clock_stamp := {| dt_year := 2025; dt_month := 3; dt_day := 9;
                       dt_hour := 14; dt_minute := 5; dt_second := 8 |};
     urandom := 0x0123456789abcdef0123456789abcdef;
     makedirs_fails := false;
     open_fails := false;
     disk_room := None |}.

(** The same request on a device that is full. *)
Definition full_disk_env : env :=
  {| clock_year := clock_year demo_env;
     clock_stamp := clock_stamp demo_env;
     urandom := urandom demo_env;
     makedirs_fails := false;
     open_fails := false;
     disk_room := Some 0%nat |}.

(** A PNG file of one red pixel, 8-bit true colour. *)
Definition rgb_png : bytes :=
  fromhex ("89504e470d0a1a0a0000000d4948445200000001000000010802000000907753de"
           +:+ "0000000c4944415478da63f8cfc0000003010100f7034143"
           +:+ "0000000049454e44ae426082").

(** A PNG file of one pixel, 8-bit grey with alpha. *)
Definition la_png : bytes :=
  fromhex ("89504e470d0a1a0a0000000d4948445200000001000000010804000000b51c0c02"
           +:+ "0000000b4944415478da6368f80f0002020180fdf2fcf4"
           +:+ "0000000049454e44ae426082").

(** Ten letters A: no image. *)
Definition text_payload : bytes := repeat Byte.x41 10.

(** ** The quality ladder, as the specification words it *)

(** Start at 85 and go down by 5 while the quality is above 40. *)
Definition quality_ladder : list Z := [85; 80; 75; 70; 65; 60; 55; 50; 45].

(** [n] qualities downwards from [q] in steps of 5. *)
Fixpoint ladder (n : nat) (q : Z) : list Z :=
  match n with
  | O => []
  | S n' => q :: ladder n' (q - 5)
  end.

(** The qualities tried along a ladder: up to and including the first one
    that fits, all of them when none fits. *)
Fixpoint tries (fits : Z -> bool) (l : list Z) : list Z :=
  match l with
  | [] => []
  | q :: r => if fits q then [q] else q :: tries fits r
  end.

(** The colour-mode normalisation at the head of [compress_image]. *)
Definition normalise `{Imaging} (img : image) : result image :=
  if bool_decide (mode img ∈ ["RGBA"; "P"]) then convert img "RGB" else Ok img.

(** The encoder gives an encoding at quality [q], and it is within the
    budget. *)
Definition fits `{Imaging} (MAX_SIZE : Z) (img : image) (q : Z) : bool :=
  match save_JPEG img q with
  | Ok data => tell data <=? MAX_SIZE
  | Raise _ => false
  end.

(** The loop goes no further than quality [q]: the encoding is within the
    budget, or the encoder raises. *)
Definition stops `{Imaging} (MAX_SIZE : Z) (img : image) (q : Z) : bool :=
  match save_JPEG img q with
  | Ok data => tell data <=? MAX_SIZE
  | Raise _ => true
  end.

(** The encoder gives an encoding at quality [q]. *)
Definition encodes `{Imaging} (img : image) (q : Z) : bool :=
  match save_JPEG img q with
  | Ok _ => true
  | Raise _ => false
  end.

(** ** Segments, as the specification words them *)

(** A letter, a digit, an underscore or a hyphen. *)
Definition allowed_char (c : ascii) : bool :=
  PyStr.isalnum_char c || Ascii.eqb c "_" || Ascii.eqb c "-".

(** The path separator, the dot, the space and the ASCII punctuation
    other than the underscore and the hyphen. *)
Definition rejected_chars : list ascii :=
  ascii_of_N 34 :: PyStr.chars "/. !#$%&'()*+,:;<=>?@[\]^`{|}~".

(** ** The validation order, as the specification words it *)

(** A segment passes sanitization. *)
Definition segment_ok (value : string) : bool :=
  PyStr.isalnum (PyStr.remove_char "-" (PyStr.remove_char "_" value)).

(** The checks in the order credential presence, tenant validity,
    credential match, category validity, segment sanitization (tenant,
    then category), each with the error of its failure. *)
Definition checks (cfg : config) (service_name category : string)
    (api_key : option string) : list (bool * exn) :=
  [ (truthy api_key, HTTPException 403 "API key required");
    (bool_decide (is_Some (ALLOWED_KEYS cfg !! service_name)),
      HTTPException 403 "Invalid service");
    (bool_decide (ALLOWED_KEYS cfg !! service_name = Some api_key),
      HTTPException 403 "Unauthorized API key");
    (bool_decide (category ∈ default [] (ALLOWED_CATEGORIES cfg !! service_name)),
      HTTPException 400 "Invalid category");
    (segment_ok service_name, HTTPException 400 "Invalid folder name");
    (segment_ok category, HTTPException 400 "Invalid folder name") ].

(** The error of the first check that fails, if any. *)
Definition first_failure (l : list (bool * exn)) : option exn :=
  snd <$> find (fun c => negb c.1) l.

(** What the handler does once validation has passed. *)
Definition after_validation `{Imaging} (cfg : config) (e : env)
    (service_name category : string) (file : UploadFile) (w : world)
  : world * result response :=
  let year := dt_year (clock_year e) in
  let folder := folder_of cfg service_name year category in
  if makedirs_fails e then (w, Raise OSError) else
  let w1 := {| dirs := {[folder]} ∪ dirs w; files := files w |} in
  match process cfg (extension (filename file)) (content file) with
  | Raise ex => (w1, Raise ex)
  | Ok (processed, final_ext) =>
      let unique := unique_name e final_ext in
      let w2 := {| dirs := dirs w1;
                   files := <[path_join folder unique := processed]> (files w1) |} in
      let cdn_base_url := default None (CDN_URL_MAP cfg !! service_name) in
      if open_fails e || negb (openable w1 (path_join folder unique))
      then (w1, Raise OSError) else
      match cut_short (disk_room e) processed with
      | Some written =>
          ({| dirs := dirs w1;
              files := <[path_join folder unique := written]> (files w1) |},
           Raise OSError)
      | None =>
      if truthy cdn_base_url then
        (w2, Ok {| status := true;
                   url := fstr cdn_base_url +:+ "/" +:+ service_name +:+ "/"
                          +:+ PyStr.str_int year +:+ "/" +:+ category +:+ "/"
                          +:+ unique;
                   size := Z.of_nat (List.length processed);
                   file := unique |})
      else (w2, Raise (HTTPException 500 "CDN URL not configured"))
      end
  end.

(** The world after the directory of the request has been created. *)
Definition with_folder (cfg : config) (e : env) (service_name category : string)
    (w : world) : world :=
  {| dirs := {[folder_of cfg service_name (dt_year (clock_year e)) category]} ∪ dirs w;
     files := files w |}.

(** The path under which a request stores a file named [unique]. *)
Definition stored_at (cfg : config) (e : env) (service_name category unique : string)
  : string :=
  path_join (folder_of cfg service_name (dt_year (clock_year e)) category) unique.


(** Checks run over the whole range of their argument. *)
Definition four_digits (k : nat) : bool :=
  Nat.eqb (String.length (PyStr.str_int (1000 + Z.of_nat k))) 4.

Definition two_digits (k : nat) : bool :=
  Nat.eqb (String.length (pad 2 (Z.of_nat k))) 2.


(** ** Requests for the examples *)

Definition photo_png : UploadFile := {| filename := "photo.PNG"; content := rgb_png |}.
Definition grey_png : UploadFile := {| filename := "grey.png"; content := la_png |}.
Definition notes_jpg : UploadFile := {| filename := "notes.jpg"; content := text_payload |}.
Definition report_pdf : UploadFile := {| filename := "report.PDF"; content := text_payload |}.
Definition readme : UploadFile := {| filename := "README"; content := rgb_png |}.
Definition archive : UploadFile := {| filename := "a.b.d/e"; content := text_payload |}.

(** What the stand-in library makes of the red pixel. *)
Definition rgb_image : stub_image := {| stub_mode := "RGB"; stub_data := rgb_png |}.

Definition demo_name (final_ext : string) : string :=
  "20250309_140508_01234567-89ab-4def-8123-456789abcdef." +:+ final_ext.

Definition demo_response : response :=
  {| status := true;
     url := "https://cdn.ukai.example/ukaisyndrome/2025/tryout/" +:+ demo_name "jpg";
     size := 58;
     file := demo_name "jpg" |}.

(** A request that straddles midnight of New Year's Eve. *)
Definition new_year_env : env :=
  {| clock_year := {| dt_year := 2025; dt_month := 12; dt_day := 31;
                      dt_hour := 23; dt_minute := 59; dt_second := 59 |};
     clock_stamp := {| dt_year := 2026; dt_month := 1; dt_day := 1;
                       dt_hour := 0; dt_minute := 0; dt_second := 0 |};
     urandom := 0x0123456789abcdef0123456789abcdef;
     makedirs_fails := false;
     open_fails := false;
     disk_room := None |}.

Definition run (cfg : config) (e : env) (service_name category : string)
    (f : UploadFile) (api_key : option string) : world * result response :=
  @upload_image stub_imaging cfg e service_name category f api_key empty_world.

(** ** Further notions for the properties of the tables and the store *)

(** The requests that [main.py]'s own tables let through validation: a
    non-empty key equal to the tenant's, and a category of that tenant. *)
Definition main_accepts (getenv : string -> option string)
    (service_name category : string) (api_key : option string) : bool :=
  truthy api_key &&
  ((String.eqb service_name "ukaisyndrome"
    && bool_decide (getenv "API_KEY_UKAISYNDROME" = api_key)
    && bool_decide (category ∈ ["tryout"; "materi"]))
   || (String.eqb service_name "absensi-berkah"
       && bool_decide (getenv "API_KEY_ABSENSIBERKAH" = api_key)
       && bool_decide (category ∈ ["wajah"; "sakit"; "izin"; "lembur"]))).

(** The same configuration with another [MAX_UPLOAD_SIZE]. *)
Definition with_max_upload_size (cfg : config) (m : Z) : config :=
  {| BASE_DIR := BASE_DIR cfg;
     MAX_UPLOAD_SIZE := m;
     CDN_URL_MAP := CDN_URL_MAP cfg;
     ALLOWED_KEYS := ALLOWED_KEYS cfg;
     ALLOWED_CATEGORIES := ALLOWED_CATEGORIES cfg |}.

(** The directory of a tenant under the storage root. *)
Definition tenant_root (cfg : config) (service_name : string) : string :=
  fstr (BASE_DIR cfg) +:+ "/" +:+ service_name +:+ "/".

(** The grouping 8-4-4-4-12 that [str] gives the 32 digits of a UUID,
    and the digits read back from such a text. *)
Definition dashed (h : string) : string :=
  substring 0 8 h +:+ "-" +:+ substring 8 4 h +:+ "-" +:+ substring 12 4 h
  +:+ "-" +:+ substring 16 4 h +:+ "-" +:+ substring 20 12 h.

Definition uuid_digits (text : string) : string :=
  substring 0 8 text +:+ substring 9 4 text +:+ substring 14 4 text
  +:+ substring 19 4 text +:+ substring 24 12 text.

(** [main.py]'s tables when no variable of the environment is set. *)
Definition unset_config : config := main_config (fun _ => None) 500.

(** The demonstration request again, in the same second, with other
    random bits. *)
Definition second_env : env :=
  {| clock_year := clock_year demo_env;
     clock_stamp := clock_stamp demo_env;
     urandom := 0xfedcba9876543210fedcba9876543210;
     makedirs_fails := false;
     open_fails := false;
     disk_room := None |}.

(** * Properties *)

Section CompressFacts.
Context `{Imaging}.
Variable MAX_SIZE : Z.

Lemma compress_loop_body (img : image) (quality : Z) (buffer : option bytes) :
  compress_loop MAX_SIZE img quality buffer =
  if decide (quality > 40) then
    match save_JPEG img quality with
    | Raise ex => ([quality], Raise ex)
    | Ok data =>
        if tell data <=? MAX_SIZE then ([quality], Ok data)
        else
          let r := compress_loop MAX_SIZE img (quality - 5) (Some data) in
          (quality :: r.1, r.2)
    end
  else ([], match buffer with
            | Some b => Ok b
            | None => Raise UnboundLocalError
            end).
Proof.
  rewrite compress_loop_equation_1.
  destruct (decide (quality > 40)); reflexivity.
Qed.

(** The loop walks the ladder of the [n] qualities above 40 that lie
    below its starting point, as far as the first one at which it stops,
    and its outcome is the encoder's at the quality it tried last. *)
Lemma compress_loop_ladder (img : image) (n : nat) :
  forall (q : Z) (buffer : option bytes),
    q - 5 * Z.of_nat n <= 40 ->
    (n = O \/ 40 < q - 5 * (Z.of_nat n - 1)) ->
    compress_loop MAX_SIZE img q buffer =
    (tries (stops MAX_SIZE img) (ladder n q),
     match find (stops MAX_SIZE img) (ladder n q) with
     | Some q' => save_JPEG img q'
     | None =>
         match n with
         | O => match buffer with
                | Some b => Ok b
                | None => Raise UnboundLocalError
                end
         | S _ => save_JPEG img (q - 5 * (Z.of_nat n - 1))
         end
     end).
Proof.
  induction n as [|n IH]; intros q buffer Hlow Hhigh.
  - rewrite compress_loop_body.
    destruct (decide (q > 40)) as [Hq|_]; [simpl in Hlow; lia | reflexivity].
  - rewrite compress_loop_body.
    destruct (decide (q > 40)) as [_|Hq]; [|lia].
    cbn [ladder tries find].
    destruct (save_JPEG img q) as [data|ex] eqn:Hsave.
    + replace (stops MAX_SIZE img q) with (tell data <=? MAX_SIZE)
        by (unfold stops; by rewrite Hsave).
      destruct (tell data <=? MAX_SIZE); [by rewrite Hsave|].
      rewrite (IH (q - 5) (Some data)) by lia.
      cbn [fst snd]. f_equal.
      destruct (find (stops MAX_SIZE img) (ladder n (q - 5))); [reflexivity|].
      destruct n as [|m].
      * rewrite <- Hsave. f_equal. lia.
      * f_equal. lia.
    + replace (stops MAX_SIZE img q) with true
        by (unfold stops; by rewrite Hsave).
      by rewrite Hsave.
Qed.

Lemma tries_prefix (f : Z -> bool) (l : list Z) : tries f l `prefix_of` l.
Proof.
  induction l as [|q r IH]; cbn [tries]; [done|].
  destruct (f q).
  - by apply (prefix_cons q [] r), prefix_nil.
  - by apply prefix_cons.
Qed.

Lemma tries_nonempty (f : Z -> bool) (l : list Z) : l <> [] -> tries f l <> [].
Proof. destruct l as [|q r]; [done|]. cbn [tries]. by destruct (f q). Qed.

(** The quality tried last is the first at which the loop stops, or the
    last of the ladder. *)
Lemma tries_last (f : Z -> bool) (l : list Z) :
  last (tries f l) = match find f l with Some q => Some q | None => last l end.
Proof.
  induction l as [|q r IH]; cbn [tries find]; [done|].
  destruct (f q); [done|].
  rewrite !last_cons, IH.
  destruct (find f r); [done|]. by destruct (last r).
Qed.

(** Where every encoding that was tried succeeded, the loop stopped for
    the budget alone. *)
Lemma tries_encoded (img : image) (l : list Z) :
  forallb (encodes img) (tries (stops MAX_SIZE img) l) = true ->
  tries (stops MAX_SIZE img) l = tries (fits MAX_SIZE img) l /\
  find (stops MAX_SIZE img) l = find (fits MAX_SIZE img) l.
Proof.
  induction l as [|q r IH]; cbn [tries find]; [done|].
  destruct (save_JPEG img q) as [data|ex] eqn:Hsave.
  - replace (stops MAX_SIZE img q) with (tell data <=? MAX_SIZE)
      by (unfold stops; by rewrite Hsave).
    replace (fits MAX_SIZE img q) with (tell data <=? MAX_SIZE)
      by (unfold fits; by rewrite Hsave).
    destruct (tell data <=? MAX_SIZE); [done|].
    cbn [forallb]. intros [_ Hall]%andb_prop.
    destruct (IH Hall) as [-> ->]. done.
  - replace (stops MAX_SIZE img q) with true
      by (unfold stops; by rewrite Hsave).
    cbn [forallb]. unfold encodes. by rewrite Hsave.
Qed.

Lemma compress_image_trace_decoded (image_bytes : bytes) (img0 img : image) :
  Image_open image_bytes = Ok img0 ->
  normalise img0 = Ok img ->
  compress_image_trace MAX_SIZE image_bytes =
  (tries (stops MAX_SIZE img) quality_ladder,
   match find (stops MAX_SIZE img) quality_ladder with
   | Some q => save_JPEG img q
   | None => save_JPEG img 45
   end).
Proof.
  intros Hopen Hnorm. unfold compress_image_trace. rewrite Hopen.
  unfold normalise in Hnorm. rewrite Hnorm.
  by rewrite (compress_loop_ladder img 9 85 None) by (simpl; lia).
Qed.

Lemma find_fits (img : image) (l : list Z) (q : Z) :
  find (fits MAX_SIZE img) l = Some q ->
  exists data, save_JPEG img q = Ok data /\ tell data <= MAX_SIZE.
Proof.
  intros Hq. apply find_some in Hq as [_ Hq]. unfold fits in Hq.
  destruct (save_JPEG img q) as [data|]; [|discriminate].
  exists data. split; [done|lia].
Qed.

(** C1, as amended. For every payload that the library opens, converts
    when its mode asks for it, and encodes at each quality the loop
    tries, [compress_image] tries the JPEG encodings of the normalised
    image along the ladder 85, 80, ..., 45 and stops at the first one
    whose size is within [MAX_SIZE]: it returns that encoding; when none
    of the tried qualities fits it has tried all nine and returns the
    last, at quality 45, which is over the budget. *)
Theorem compress_image_search (image_bytes : bytes) (img0 img : image) :
  Image_open image_bytes = Ok img0 ->
  normalise img0 = Ok img ->
  forallb (encodes img) (compress_image_trace MAX_SIZE image_bytes).1 = true ->
  (compress_image_trace MAX_SIZE image_bytes).1 =
    tries (fits MAX_SIZE img) quality_ladder /\
  (forall q, find (fits MAX_SIZE img) quality_ladder = Some q ->
     exists data,
       save_JPEG img q = Ok data /\
       compress_image MAX_SIZE image_bytes = Ok data /\
       tell data <= MAX_SIZE) /\
  (find (fits MAX_SIZE img) quality_ladder = None ->
     exists data,
       save_JPEG img 45 = Ok data /\
       compress_image MAX_SIZE image_bytes = Ok data /\
       (compress_image_trace MAX_SIZE image_bytes).1 = quality_ladder /\
       MAX_SIZE < tell data).
Proof.
  intros Hopen Hnorm. unfold compress_image.
  rewrite (compress_image_trace_decoded _ _ _ Hopen Hnorm). cbn [fst snd].
  intros Hall. destruct (tries_encoded _ _ Hall) as [Htries Hfind].
  rewrite Htries in Hall |- *. rewrite Hfind.
  split; [reflexivity|]. split.
  - intros q Hq. rewrite Hq.
    destruct (find_fits _ _ _ Hq) as (data & Hsave & Hle).
    exists data. by rewrite Hsave.
  - intros Hnone. rewrite Hnone.
    assert (tries (fits MAX_SIZE img) quality_ladder = quality_ladder) as Hfull.
    { clear -Hnone. unfold quality_ladder in *. cbn [find tries] in *.
      repeat match goal with
             | |- context [fits ?m ?i ?q] =>
                 destruct (fits m i q); [discriminate|]
             end.
      reflexivity. }
    rewrite Hfull in Hall.
    assert (encodes img 45 = true) as Henc.
    { apply (proj1 (forallb_forall _ _) Hall). unfold quality_ladder.
      cbn [ladder In]. lia. }
    assert (fits MAX_SIZE img 45 = false) as Hq.
    { apply (find_none _ _ Hnone). unfold quality_ladder.
      cbn [ladder In]. lia. }
    unfold encodes in Henc. unfold fits in Hq.
    destruct (save_JPEG img 45) as [data|]; [|discriminate].
    exists data. repeat split; try done. lia.
Qed.

(** C9. On a decodable payload [compress_image] comes to an end after at
    most 10 encodings: the qualities it tries form an initial part of 85,
    80, ..., 45, each above 40, and from any starting quality the loop
    makes no more iterations than there are steps of 5 above 40. Where
    the conversion succeeded at least one encoding is tried, and the
    outcome is the encoder's, bytes or error, at the quality tried last;
    where it failed no encoding is tried and the outcome is its error. *)
Theorem compress_image_terminates (image_bytes : bytes) (img0 : image) :
  Image_open image_bytes = Ok img0 ->
  (compress_image_trace MAX_SIZE image_bytes).1 `prefix_of` quality_ladder /\
  (List.length (compress_image_trace MAX_SIZE image_bytes).1 <= 10)%nat /\
  Forall (fun q => 40 < q) (compress_image_trace MAX_SIZE image_bytes).1 /\
  (forall img q buffer,
      5 * Z.of_nat (List.length (compress_loop MAX_SIZE img q buffer).1)
      <= Z.max 0 (q - 40) + 4) /\
  (forall img, normalise img0 = Ok img ->
      (1 <= List.length (compress_image_trace MAX_SIZE image_bytes).1)%nat /\
      exists q, last (compress_image_trace MAX_SIZE image_bytes).1 = Some q /\
                compress_image MAX_SIZE image_bytes = save_JPEG img q) /\
  (forall ex, normalise img0 = Raise ex ->
      compress_image_trace MAX_SIZE image_bytes = ([], Raise ex)).
Proof.
  intros Hopen.
  assert ((compress_image_trace MAX_SIZE image_bytes).1 `prefix_of` quality_ladder)
    as Hpre.
  { destruct (normalise img0) as [img|ex] eqn:Hnorm.
    - rewrite (compress_image_trace_decoded _ _ _ Hopen Hnorm). apply tries_prefix.
    - unfold compress_image_trace. rewrite Hopen.
      unfold normalise in Hnorm. rewrite Hnorm. apply prefix_nil. }
  split; [exact Hpre|split; [|split; [|split; [|split]]]].
  - pose proof (prefix_length _ _ Hpre) as Hlen.
    change (length quality_ladder) with 9%nat in Hlen. lia.
  - destruct Hpre as [k Hk].
    assert (Forall (fun q => 40 < q) quality_ladder) as Hall
        by (unfold quality_ladder; repeat constructor).
    rewrite Hk in Hall. by apply Forall_app in Hall as [? _].
  - intros img q buffer.
    remember (Z.to_nat (Z.max 0 (q - 40) + 4)) as m eqn:Hm.
    revert q buffer Hm.
    induction m as [m IH] using lt_wf_ind. intros q buffer Hm.
    rewrite compress_loop_body.
    destruct (decide (q > 40)) as [Hq|Hq]; [|simpl; lia].
    destruct (save_JPEG img q) as [data|ex]; [|simpl; lia].
    destruct (tell data <=? MAX_SIZE); [simpl; lia|].
    cbn [fst snd List.length].
    specialize (IH (Z.to_nat (Z.max 0 (q - 5 - 40) + 4)) ltac:(lia)
                   (q - 5) (Some data) eq_refl).
    lia.
  - intros img Hnorm. unfold compress_image.
    rewrite (compress_image_trace_decoded _ _ _ Hopen Hnorm). cbn [fst snd].
    split.
    + pose proof (tries_nonempty (stops MAX_SIZE img) quality_ladder
                    ltac:(discriminate)) as Hne.
      destruct (tries _ quality_ladder); [done | simpl; lia].
    + rewrite tries_last.
      destruct (find (stops MAX_SIZE img) quality_ladder) as [q|]; [by exists q|].
      by exists 45.
  - intros ex Hnorm. unfold compress_image_trace. rewrite Hopen.
    unfold normalise in Hnorm. by rewrite Hnorm.
Qed.

End CompressFacts.

Section UploadFacts.
Context `{Imaging}.
Variable cfg : config.
Variable e : env.

Lemma sanitize_segment_run (value : string) :
  sanitize_segment value =
  if segment_ok value then Ok value
  else Raise (HTTPException 400 "Invalid folder name").
Proof. unfold sanitize_segment, segment_ok. by destruct (PyStr.isalnum _). Qed.

(** The handler is the validation sequence followed by the storage
    steps. *)
Lemma upload_image_run (service_name category : string) (f : UploadFile)
    (api_key : option string) (w : world) :
  upload_image cfg e service_name category f api_key w =
  match first_failure (checks cfg service_name category api_key) with
  | Some ex => (w, Raise ex)
  | None => after_validation cfg e service_name category f w
  end.
Proof.
  unfold upload_image, checks, first_failure.
  cbn [find fst snd negb fmap option_fmap option_map].
  destruct (truthy api_key); cbn [negb]; [|reflexivity].
  destruct (ALLOWED_KEYS cfg !! service_name) as [key|] eqn:Hkey.
  2:{ rewrite bool_decide_eq_false_2 by (intros [? ?]; discriminate). reflexivity. }
  rewrite (bool_decide_eq_true_2 (is_Some (Some key))) by done. cbn [negb].
  destruct (decide (api_key = key)) as [->|Hne].
  2:{ rewrite (bool_decide_eq_false_2 (api_key = key)) by done.
      rewrite (bool_decide_eq_false_2 (Some key = Some api_key)) by congruence.
      reflexivity. }
  rewrite (bool_decide_eq_true_2 (key = key)) by done.
  rewrite (bool_decide_eq_true_2 (Some key = Some key)) by done. cbn [negb].
  destruct (bool_decide (category ∈ _)); cbn [negb]; [|reflexivity].
  unfold bind, lift. rewrite !sanitize_segment_run.
  destruct (segment_ok service_name); cbn [negb]; [|reflexivity].
  destruct (segment_ok category); cbn [negb]; [|reflexivity].
  unfold after_validation, makedirs, write_file, raise, ret.
  destruct (makedirs_fails e); [reflexivity|].
  destruct (process cfg _ _) as [[processed final_ext]|ex]; [|reflexivity].
  cbn [fst snd dirs files].
  destruct (open_fails e || negb (openable _ _)); [reflexivity|].
  destruct (cut_short (disk_room e) processed); [reflexivity|].
  destruct (truthy (default None (CDN_URL_MAP cfg !! service_name))); reflexivity.
Qed.

Lemma truthy_Some (o : option string) :
  truthy o = true -> exists s, o = Some s /\ s <> "".
Proof.
  destruct o as [s|]; [|discriminate]. cbn [truthy].
  destruct (String.eqb_spec s ""); [discriminate|]. eauto.
Qed.

(** A request that succeeds passed every check, processed its payload,
    stored it and found the tenant's base URL. *)
Lemma upload_image_Ok (service_name category : string) (f : UploadFile)
    (api_key : option string) (w w' : world) (resp : response) :
  upload_image cfg e service_name category f api_key w = (w', Ok resp) ->
  first_failure (checks cfg service_name category api_key) = None /\
  exists processed final_ext base,
    process cfg (extension (filename f)) (content f) = Ok (processed, final_ext) /\
    cut_short (disk_room e) processed = None /\
    CDN_URL_MAP cfg !! service_name = Some (Some base) /\ base <> "" /\
    dirs w' = dirs (with_folder cfg e service_name category w) /\
    files w' = <[stored_at cfg e service_name category (unique_name e final_ext) := processed]>
                 (files w) /\
    resp = {| status := true;
              url := base +:+ "/" +:+ service_name +:+ "/"
                     +:+ PyStr.str_int (dt_year (clock_year e)) +:+ "/" +:+ category
                     +:+ "/" +:+ unique_name e final_ext;
              size := Z.of_nat (List.length processed);
              file := unique_name e final_ext |}.
Proof.
  rewrite upload_image_run.
  destruct (first_failure _) as [ex|]; [discriminate|].
  unfold after_validation.
  destruct (makedirs_fails e); [discriminate|].
  destruct (process cfg _ _) as [[processed final_ext]|ex]; [|discriminate].
  destruct (open_fails e || negb (openable _ _)); [discriminate|].
  destruct (cut_short _ _) eqn:Hcut; [discriminate|].
  destruct (truthy _) eqn:Hurl; [|discriminate].
  apply truthy_Some in Hurl as (base & Hbase & Hne).
  intros [= <- <-]. split; [reflexivity|].
  exists processed, final_ext, base. rewrite Hbase. cbn [fstr dirs files].
  repeat split; try done.
  destruct (CDN_URL_MAP cfg !! service_name) as [o|]; [|discriminate].
  simpl in Hbase. by rewrite Hbase.
Qed.

(** A request that fails failed a check, or could not create its
    directory, or failed to process its payload, or could not open its
    file, or could not complete the write, or found no base URL after
    the file was stored. *)
Lemma upload_image_Raise (service_name category : string) (f : UploadFile)
    (api_key : option string) (w w' : world) (ex : exn) :
  upload_image cfg e service_name category f api_key w = (w', Raise ex) ->
  (first_failure (checks cfg service_name category api_key) = Some ex /\ w' = w) \/
  (first_failure (checks cfg service_name category api_key) = None /\
   makedirs_fails e = true /\ ex = OSError /\ w' = w) \/
  (first_failure (checks cfg service_name category api_key) = None /\
   makedirs_fails e = false /\
   process cfg (extension (filename f)) (content f) = Raise ex /\
   w' = with_folder cfg e service_name category w) \/
  (first_failure (checks cfg service_name category api_key) = None /\
   makedirs_fails e = false /\ ex = OSError /\
   w' = with_folder cfg e service_name category w /\
   exists processed final_ext,
     process cfg (extension (filename f)) (content f) = Ok (processed, final_ext) /\
     open_fails e
     || negb (openable (with_folder cfg e service_name category w)
                (stored_at cfg e service_name category (unique_name e final_ext)))
     = true) \/
  (first_failure (checks cfg service_name category api_key) = None /\
   ex = OSError /\
   exists processed final_ext written,
     process cfg (extension (filename f)) (content f) = Ok (processed, final_ext) /\
     cut_short (disk_room e) processed = Some written /\
     files w' = <[stored_at cfg e service_name category (unique_name e final_ext) := written]>
                  (files w)) \/
  (first_failure (checks cfg service_name category api_key) = None /\
   ex = HTTPException 500 "CDN URL not configured" /\
   exists processed final_ext,
     process cfg (extension (filename f)) (content f) = Ok (processed, final_ext) /\
     files w' = <[stored_at cfg e service_name category (unique_name e final_ext) := processed]>
                  (files w)).
Proof.
  rewrite upload_image_run.
  destruct (first_failure _) as [ex'|]; [intros [= <- <-]; by left|].
  unfold after_validation.
  destruct (makedirs_fails e); [intros [= <- <-]; right; by left|].
  destruct (process cfg _ _) as [[processed final_ext]|ex'].
  - destruct (open_fails e || negb (openable _ _)) eqn:Hopen.
    { intros [= <- <-]. do 3 right. left. repeat split; try done.
      by exists processed, final_ext. }
    destruct (cut_short _ _) as [written|] eqn:Hcut.
    + intros [= <- <-]. do 4 right. left. repeat split; try done.
      by exists processed, final_ext, written.
    + destruct (truthy _); [discriminate|]. intros [= <- <-].
      do 5 right. repeat split; try done. by exists processed, final_ext.
  - intros [= <- <-]. do 2 right. left. by repeat split.
Qed.

Lemma process_reencode (ext : string) (original_bytes : bytes) :
  ext ∈ ["jpg"; "jpeg"; "png"] ->
  process cfg ext original_bytes =
  match compress_image (MAX_SIZE cfg) original_bytes with
  | Ok processed => Ok (processed, "jpg")
  | Raise ex => Raise ex
  end.
Proof. intros Hin. unfold process. by rewrite bool_decide_eq_true_2. Qed.

Lemma process_passthrough (ext : string) (original_bytes : bytes) :
  ext ∉ ["jpg"; "jpeg"; "png"] ->
  process cfg ext original_bytes = Ok (original_bytes, ext).
Proof. intros Hin. unfold process. by rewrite bool_decide_eq_false_2. Qed.

Lemma compress_image_undecodable (image_bytes : bytes) (ex : exn) :
  Image_open image_bytes = Raise ex ->
  compress_image (MAX_SIZE cfg) image_bytes = Raise ex.
Proof. intros Hopen. unfold compress_image, compress_image_trace. by rewrite Hopen. Qed.

Lemma compress_image_Ok_decodable (image_bytes out : bytes) :
  compress_image (MAX_SIZE cfg) image_bytes = Ok out ->
  exists img0 img, Image_open image_bytes = Ok img0 /\ normalise img0 = Ok img.
Proof.
  unfold compress_image, compress_image_trace.
  destruct (Image_open image_bytes) as [img0|]; [|discriminate].
  destruct (normalise img0) as [img|] eqn:Hnorm; [eauto|].
  unfold normalise in Hnorm. by rewrite Hnorm.
Qed.

Lemma cut_short_Some (room : option nat) (data written : bytes) :
  cut_short room data = Some written ->
  (List.length written < List.length data)%nat /\
  written = take (List.length written) data.
Proof.
  unfold cut_short. destruct room as [k|]; [|discriminate].
  destruct (Nat.ltb_spec k (List.length data)) as [Hk|]; [|discriminate].
  intros [= <-]. rewrite length_take, Nat.min_l by lia. done.
Qed.

(** C4. The checks run in the order credential presence, tenant
    validity, credential match, category validity, segment sanitization:
    the request is rejected with the error of the first check that fails,
    whatever the later checks would say, and the file system is then
    exactly as before; only when every check passes does the handler go
    on to create the directory, which is there afterwards unless the
    operating system refused it; then the request ends with that error
    and the file system as before. *)
Theorem validation_order (service_name category : string) (f : UploadFile)
    (api_key : option string) (w : world) :
  match first_failure (checks cfg service_name category api_key) with
  | Some ex =>
      upload_image cfg e service_name category f api_key w = (w, Raise ex)
  | None =>
      upload_image cfg e service_name category f api_key w
      = after_validation cfg e service_name category f w /\
      if makedirs_fails e
      then upload_image cfg e service_name category f api_key w = (w, Raise OSError)
      else folder_of cfg service_name (dt_year (clock_year e)) category
           ∈ dirs (upload_image cfg e service_name category f api_key w).1
  end.
Proof.
  rewrite upload_image_run.
  destruct (first_failure _) as [ex|]; [reflexivity|].
  split; [reflexivity|]. unfold after_validation.
  destruct (makedirs_fails e); [reflexivity|].
  destruct (process cfg _ _) as [[processed final_ext]|ex].
  - destruct (open_fails e || negb _); [cbn [fst dirs]; set_solver|].
    destruct (cut_short _ _); [|destruct (truthy _)]; cbn [fst dirs]; set_solver.
  - cbn [fst dirs]. set_solver.
Qed.

(** C6, as amended. A request for an unrecognized tenant and a request
    for a recognized tenant with a mismatching credential are both
    rejected with status 403 and without touching the file system, but
    the detail of the response names the check that failed: "Invalid
    service" for the first, "Unauthorized API key" for the second. *)
Theorem tenant_rejections_share_status_only
    (service1 category1 : string) (f1 : UploadFile) (api_key1 : option string)
    (service2 category2 : string) (f2 : UploadFile) (api_key2 : option string)
    (key : option string) (w1 w2 : world) :
  truthy api_key1 = true ->
  ALLOWED_KEYS cfg !! service1 = None ->
  truthy api_key2 = true ->
  ALLOWED_KEYS cfg !! service2 = Some key ->
  api_key2 <> key ->
  upload_image cfg e service1 category1 f1 api_key1 w1
  = (w1, Raise (HTTPException 403 "Invalid service")) /\
  upload_image cfg e service2 category2 f2 api_key2 w2
  = (w2, Raise (HTTPException 403 "Unauthorized API key")).
Proof.
  intros Hk1 Hs1 Hk2 Hs2 Hne.
  rewrite !upload_image_run. unfold checks, first_failure.
  rewrite Hk1, Hk2, Hs1, Hs2. cbn [find fst snd negb].
  rewrite (bool_decide_eq_false_2 (is_Some None)) by (intros [? ?]; discriminate).
  rewrite (bool_decide_eq_true_2 (is_Some (Some key))) by done.
  rewrite (bool_decide_eq_false_2 (Some key = Some api_key2)) by congruence.
  split; reflexivity.
Qed.

(** C2, as amended. When the extension of an upload that passed
    validation selects the re-encoder but the payload is not decodable as
    an image, the decoder's error is not caught: the request fails with
    it, the raw bytes are not stored, no file is written, and the
    directory of the request has already been created. (Where the
    operating system refused that directory the request has ended there,
    before the payload was looked at.) *)
Theorem undecodable_image_fails_request (service_name category : string)
    (f : UploadFile) (api_key : option string) (w : world) (ex : exn) :
  first_failure (checks cfg service_name category api_key) = None ->
  extension (filename f) ∈ ["jpg"; "jpeg"; "png"] ->
  Image_open (content f) = Raise ex ->
  upload_image cfg e service_name category f api_key w
  = (if makedirs_fails e then (w, Raise OSError)
     else (with_folder cfg e service_name category w, Raise ex)) /\
  files (upload_image cfg e service_name category f api_key w).1 = files w.
Proof.
  intros Hval Hext Hopen. rewrite upload_image_run, Hval.
  unfold after_validation.
  rewrite (process_reencode _ _ Hext), (compress_image_undecodable _ _ Hopen).
  destruct (makedirs_fails e); split; reflexivity.
Qed.

(** C3, as amended. A request that completes has stored the bytes its
    processing step produced, in full, at the final path and returns
    their size, their name and the URL under the tenant's base URL. A
    request that fails in validation, in creating its directory, while
    processing its payload or in opening its file has written no file.
    The file is written in place: a request whose write gives out after
    the file was opened fails and leaves at the final path the file as
    far as it was written, empty or cut short. Every failure is one of
    these, but for the "CDN URL not configured" failure, whose remains on
    disk this statement does not cover. *)
Theorem failed_upload_writes_no_file (service_name category : string)
    (f : UploadFile) (api_key : option string) (w : world) :
  (forall w' resp,
      upload_image cfg e service_name category f api_key w = (w', Ok resp) ->
      exists processed final_ext base,
        process cfg (extension (filename f)) (content f) = Ok (processed, final_ext) /\
        file resp = unique_name e final_ext /\
        files w' = <[stored_at cfg e service_name category (file resp) := processed]>
                     (files w) /\
        size resp = Z.of_nat (List.length processed) /\
        CDN_URL_MAP cfg !! service_name = Some (Some base) /\
        url resp = base +:+ "/" +:+ service_name +:+ "/"
                   +:+ PyStr.str_int (dt_year (clock_year e)) +:+ "/" +:+ category
                   +:+ "/" +:+ file resp) /\
  (forall w' ex,
      upload_image cfg e service_name category f api_key w = (w', Raise ex) ->
      ex <> HTTPException 500 "CDN URL not configured" ->
      files w' = files w \/
      (ex = OSError /\
       exists processed final_ext written,
         process cfg (extension (filename f)) (content f) = Ok (processed, final_ext) /\
         cut_short (disk_room e) processed = Some written /\
         (List.length written < List.length processed)%nat /\
         written = take (List.length written) processed /\
         files w' = <[stored_at cfg e service_name category (unique_name e final_ext)
                      := written]> (files w))) /\
  (forall ex,
      first_failure (checks cfg service_name category api_key) = Some ex ->
      upload_image cfg e service_name category f api_key w = (w, Raise ex)) /\
  (first_failure (checks cfg service_name category api_key) = None ->
   makedirs_fails e = true ->
   upload_image cfg e service_name category f api_key w = (w, Raise OSError)) /\
  (forall ex,
      first_failure (checks cfg service_name category api_key) = None ->
      makedirs_fails e = false ->
      process cfg (extension (filename f)) (content f) = Raise ex ->
      upload_image cfg e service_name category f api_key w
      = (with_folder cfg e service_name category w, Raise ex)) /\
  (forall processed final_ext,
      first_failure (checks cfg service_name category api_key) = None ->
      makedirs_fails e = false ->
      process cfg (extension (filename f)) (content f) = Ok (processed, final_ext) ->
      open_fails e
      || negb (openable (with_folder cfg e service_name category w)
                 (stored_at cfg e service_name category (unique_name e final_ext)))
      = true ->
      upload_image cfg e service_name category f api_key w
      = (with_folder cfg e service_name category w, Raise OSError)) /\
  (forall processed final_ext written,
      first_failure (checks cfg service_name category api_key) = None ->
      makedirs_fails e = false ->
      process cfg (extension (filename f)) (content f) = Ok (processed, final_ext) ->
      open_fails e = false ->
      openable (with_folder cfg e service_name category w)
        (stored_at cfg e service_name category (unique_name e final_ext)) = true ->
      cut_short (disk_room e) processed = Some written ->
      upload_image cfg e service_name category f api_key w
      = ({| dirs := dirs (with_folder cfg e service_name category w);
            files := <[stored_at cfg e service_name category (unique_name e final_ext)
                       := written]> (files w) |},
         Raise OSError) /\
      (List.length written < List.length processed)%nat).
Proof.
  split; [|split; [|split; [|split; [|split; [|split]]]]].
  - intros w' resp Hrun.
    apply upload_image_Ok in Hrun
      as (_ & processed & final_ext & base & Hproc & _ & Hbase & _ & _ & Hfiles & ->).
    by exists processed, final_ext, base.
  - intros w' ex Hrun Hex.
    apply upload_image_Raise in Hrun
      as [[_ ->]|[(_ & _ & _ & ->)|[(_ & _ & _ & ->)|[(_ & _ & _ & -> & _)
         |[(_ & -> & Hcut)|(_ & -> & _)]]]]]; try by left.
    right. split; [done|].
    destruct Hcut as (processed & final_ext & written & Hproc & Hcut & Hfiles).
    exists processed, final_ext, written.
    destruct (cut_short_Some _ _ _ Hcut) as (Hlen & Htake). done.
  - intros ex Hval. by rewrite upload_image_run, Hval.
  - intros Hval Hmk. rewrite upload_image_run, Hval.
    unfold after_validation. by rewrite Hmk.
  - intros ex Hval Hmk Hproc. rewrite upload_image_run, Hval.
    unfold after_validation. by rewrite Hmk, Hproc.
  - intros processed final_ext Hval Hmk Hproc Hopen.
    rewrite upload_image_run, Hval.
    unfold after_validation. rewrite Hmk, Hproc.
    unfold stored_at, with_folder in Hopen. by rewrite Hopen.
  - intros processed final_ext written Hval Hmk Hproc Hopen Hdir Hcut.
    rewrite upload_image_run, Hval.
    unfold after_validation. rewrite Hmk, Hproc.
    unfold stored_at, with_folder in Hdir. rewrite Hopen, Hdir, Hcut.
    split; [reflexivity|]. by apply cut_short_Some in Hcut as [? _].
Qed.

End UploadFacts.

(** ** Sanitization *)

Section SanitizeFacts.

Lemma chars_remove_char (c : ascii) (s : string) :
  PyStr.chars (PyStr.remove_char c s)
  = List.filter (fun d => negb (Ascii.eqb d c)) (PyStr.chars s).
Proof.
  induction s as [|d r IH]; [reflexivity|].
  cbn [PyStr.remove_char PyStr.chars list_ascii_of_string List.filter].
  destruct (Ascii.eqb d c); cbn [negb]; [exact IH|].
  cbn [PyStr.chars list_ascii_of_string]. f_equal. exact IH.
Qed.

Lemma isalnum_spec (s : string) :
  PyStr.isalnum s = true <->
  PyStr.chars s <> [] /\ forall c, In c (PyStr.chars s) -> PyStr.isalnum_char c = true.
Proof.
  unfold PyStr.isalnum. destruct (PyStr.chars s) as [|c cs] eqn:Hcs.
  - split; [discriminate | intros [Hne _]; by destruct Hne].
  - rewrite forallb_forall. split; [intros Hall; split; [discriminate | exact Hall]|].
    intros [_ Hall]. exact Hall.
Qed.

Lemma In_kept (s : string) (c : ascii) :
  In c (PyStr.chars (PyStr.remove_char "-" (PyStr.remove_char "_" s))) <->
  In c (PyStr.chars s) /\ c <> "_"%char /\ c <> "-"%char.
Proof.
  rewrite !chars_remove_char, !filter_In, !negb_true_iff.
  rewrite !Ascii.eqb_neq. tauto.
Qed.

Lemma segment_ok_spec (s : string) :
  segment_ok s = true <->
  (forall c, In c (PyStr.chars s) -> allowed_char c = true) /\
  (exists c, In c (PyStr.chars s) /\ PyStr.isalnum_char c = true).
Proof.
  unfold segment_ok. rewrite isalnum_spec. split.
  - intros [Hne Hall]. split.
    + intros c Hc. unfold allowed_char.
      destruct (Ascii.eqb_spec c "_") as [->|Hu]; [by rewrite orb_true_r|].
      destruct (Ascii.eqb_spec c "-") as [->|Hh]; [by rewrite orb_true_r|].
      rewrite (Hall c); [reflexivity|]. by apply In_kept.
    + destruct (PyStr.chars (PyStr.remove_char _ _)) as [|c cs] eqn:Hcs; [done|].
      exists c. assert (In c (c :: cs)) as Hin by (by left).
      split; [|by apply Hall]. rewrite <- Hcs in Hin. by apply In_kept in Hin as [? _].
  - intros [Hall (c & Hc & Hal)]. split.
    + assert (In c (PyStr.chars (PyStr.remove_char "-" (PyStr.remove_char "_" s)))) as Hin.
      { apply In_kept. repeat split; [done|..]; intros ->; discriminate. }
      intros Hnil. by rewrite Hnil in Hin.
    + intros d Hd. apply In_kept in Hd as (Hd & Hu & Hh).
      specialize (Hall d Hd). unfold allowed_char in Hall.
      apply Ascii.eqb_neq in Hu, Hh. by rewrite Hu, Hh, !orb_false_r in Hall.
Qed.

Lemma rejected_chars_not_allowed (c : ascii) :
  In c rejected_chars -> allowed_char c = false.
Proof.
  unfold rejected_chars. cbn [PyStr.chars list_ascii_of_string In].
  intros Hc. repeat (destruct Hc as [<-|Hc]; [reflexivity|]). destruct Hc.
Qed.

(** C5, as amended. [sanitize_segment] accepts a segment exactly when it
    consists of letters, digits, underscores and hyphens only and has at
    least one letter or digit, and returns it unchanged; every other
    segment is rejected with "Invalid folder name", in particular every
    segment with a path separator, a dot (hence ".."), a space or a
    punctuation mark other than the underscore and the hyphen. *)
Theorem sanitize_segment_accepts (s : string) :
  (sanitize_segment s = Ok s <->
   (forall c, In c (PyStr.chars s) -> allowed_char c = true) /\
   (exists c, In c (PyStr.chars s) /\ PyStr.isalnum_char c = true)) /\
  (sanitize_segment s <> Ok s ->
   sanitize_segment s = Raise (HTTPException 400 "Invalid folder name")) /\
  (forall c, In c (PyStr.chars s) -> In c rejected_chars ->
   sanitize_segment s = Raise (HTTPException 400 "Invalid folder name")).
Proof.
  rewrite sanitize_segment_run, <- segment_ok_spec.
  destruct (segment_ok s) eqn:Hok.
  - split; [tauto|]. split; [done|].
    intros c Hc Hbad. apply segment_ok_spec in Hok as [Hall _].
    specialize (Hall c Hc). by rewrite (rejected_chars_not_allowed c Hbad) in Hall.
  - split; [split; [discriminate | intros [=]]|]. by split.
Qed.

End SanitizeFacts.

(** ** Strings, numerals and identifiers *)

Section StringFacts.

Lemma app_String (c : ascii) (a b : string) :
  String c a +:+ b = String c (a +:+ b).
Proof. reflexivity. Qed.

Lemma app_empty_l (b : string) : "" +:+ b = b.
Proof. reflexivity. Qed.

Lemma length_app (a b : string) :
  String.length (a +:+ b) = (String.length a + String.length b)%nat.
Proof.
  induction a as [|c a IH]; [reflexivity|].
  rewrite app_String. cbn [String.length]. by rewrite IH.
Qed.

Lemma endswith_app (c : ascii) (a b : string) :
  b <> "" -> PyStr.endswith c (a +:+ b) = PyStr.endswith c b.
Proof.
  intros Hb. induction a as [|d a IH]; [reflexivity|].
  rewrite app_String. cbn [PyStr.endswith].
  destruct (a +:+ b) eqn:Hab; [|exact IH].
  destruct a; [by rewrite app_empty_l in Hab | by rewrite app_String in Hab].
Qed.

Lemma startswith_app (c : ascii) (a b : string) :
  a <> "" -> PyStr.startswith c (a +:+ b) = PyStr.startswith c a.
Proof. destruct a; [done|]. by rewrite app_String. Qed.

Lemma app_nonempty_r (a b : string) : b <> "" -> a +:+ b <> "".
Proof. destruct a; [done|]. by rewrite app_String. Qed.

Lemma digit_not_slash (d : Z) : 0 <= d < 10 -> PyStr.digit d <> "/"%char.
Proof.
  intros Hd.
  assert (d = 0 \/ d = 1 \/ d = 2 \/ d = 3 \/ d = 4 \/ d = 5 \/ d = 6 \/ d = 7
          \/ d = 8 \/ d = 9) as Hcases by lia.
  repeat (destruct Hcases as [->|Hcases]; [discriminate|]). by subst d.
Qed.

Lemma dec_digits_head (fuel : nat) :
  forall (n : Z) (acc : string), 0 <= n ->
    exists d r, 0 <= d < 10 /\ PyStr.dec_digits (S fuel) n acc = String (PyStr.digit d) r.
Proof.
  induction fuel as [|fuel IH]; intros n acc Hn.
  - exists (n mod 10), acc. split; [apply Z.mod_pos_bound; lia|].
    cbn [PyStr.dec_digits]. by destruct (n / 10 =? 0).
  - change (PyStr.dec_digits (S (S fuel)) n acc)
      with (if n / 10 =? 0 then String (PyStr.digit (n mod 10)) acc
            else PyStr.dec_digits (S fuel) (n / 10) (String (PyStr.digit (n mod 10)) acc)).
    destruct (n / 10 =? 0).
    + exists (n mod 10), acc. split; [apply Z.mod_pos_bound; lia | reflexivity].
    + apply IH. apply Z.div_pos; lia.
Qed.

Lemma str_int_head (n : Z) :
  exists c r, PyStr.str_int n = String c r /\ c <> "/"%char.
Proof.
  unfold PyStr.str_int. destruct (n <? 0) eqn:Hn.
  - eexists _, _. split; [reflexivity | discriminate].
  - destruct (dec_digits_head (Z.to_nat (Z.log2 n)) n "") as (d & r & Hd & ->); [lia|].
    exists (PyStr.digit d), r. split; [reflexivity | by apply digit_not_slash].
Qed.

Lemma pad_head (width : nat) (n : Z) :
  exists c r, pad width n = String c r /\ c <> "/"%char.
Proof.
  unfold pad, PyStr.zfill.
  destruct (width - String.length (PyStr.str_int n))%nat as [|k].
  - cbn [PyStr.zeros]. rewrite app_empty_l. apply str_int_head.
  - cbn [PyStr.zeros]. rewrite app_String. eexists _, _.
    split; [reflexivity | discriminate].
Qed.

Lemma strftime_not_absolute (d : datetime) (rest : string) :
  PyStr.startswith "/" (strftime d +:+ rest) = false.
Proof.
  unfold strftime. destruct (pad_head 4 (dt_year d)) as (c & r & -> & Hc).
  rewrite !app_String. cbn [PyStr.startswith]. by apply Ascii.eqb_neq.
Qed.

Lemma path_join_relative (a b : string) :
  PyStr.endswith "/" a = true -> PyStr.startswith "/" b = false ->
  path_join a b = a +:+ b.
Proof.
  intros Ha Hb. unfold path_join. rewrite Hb, Ha. by rewrite orb_true_r.
Qed.

Lemma four_digits_all : forallb four_digits (seq 0 (90 * 100)) = true.
Proof. vm_compute. reflexivity. Qed.

Lemma str_int_year (y : Z) :
  1000 <= y <= 9999 -> String.length (PyStr.str_int y) = 4%nat.
Proof.
  intros Hy. pose proof four_digits_all as Hall.
  rewrite forallb_forall in Hall.
  specialize (Hall (Z.to_nat (y - 1000))). unfold four_digits in Hall.
  replace (1000 + Z.of_nat (Z.to_nat (y - 1000))) with y in Hall by lia.
  apply Nat.eqb_eq, Hall, in_seq. lia.
Qed.

Lemma two_digits_all : forallb two_digits (seq 0 100) = true.
Proof. vm_compute. reflexivity. Qed.

Lemma pad_two (n : Z) : 0 <= n <= 99 -> String.length (pad 2 n) = 2%nat.
Proof.
  intros Hn. pose proof two_digits_all as Hall.
  rewrite forallb_forall in Hall.
  specialize (Hall (Z.to_nat n)). unfold two_digits in Hall.
  rewrite Z2Nat.id in Hall by lia.
  apply Nat.eqb_eq, Hall, in_seq. lia.
Qed.

Lemma pad_year (y : Z) : 1000 <= y <= 9999 -> String.length (pad 4 y) = 4%nat.
Proof.
  intros Hy. unfold pad, PyStr.zfill.
  rewrite length_app, (str_int_year y Hy). reflexivity.
Qed.

(** The timestamp of a four-digit year has the shape YYYYMMDD_HHMMSS. *)
Lemma strftime_length (d : datetime) :
  valid_datetime d -> 1000 <= dt_year d -> String.length (strftime d) = 15%nat.
Proof.
  intros (Hy & Hm & Hd & Hh & Hmi & Hs) Hy'. unfold strftime.
  rewrite !length_app, pad_year by lia.
  rewrite !pad_two by lia. reflexivity.
Qed.

Lemma lor_below (n a b : Z) :
  0 <= a < 2 ^ n -> 0 <= b < 2 ^ n -> 0 <= Z.lor a b < 2 ^ n.
Proof.
  intros Ha Hb. assert (0 <= Z.lor a b) as Hnn by (apply Z.lor_nonneg; lia).
  split; [exact Hnn|].
  destruct (Z.eq_dec (Z.lor a b) 0) as [->|Hz]; [lia|].
  assert (0 < n) as Hn.
  { destruct (Z_lt_le_dec 0 n) as [|Hle]; [done|]. exfalso. apply Hz.
    assert (2 ^ n <= 1) as Hp.
    { destruct (Z.eq_dec n 0) as [->|]; [simpl; lia|].
      rewrite Z.pow_neg_r by lia. lia. }
    assert (a = 0) as -> by lia. assert (b = 0) as -> by lia. reflexivity. }
  apply Z.log2_lt_pow2; [lia|]. rewrite Z.log2_lor by lia.
  apply Z.max_lub_lt.
  - destruct (Z.eq_dec a 0) as [->|]; [simpl; lia | apply Z.log2_lt_pow2; lia].
  - destruct (Z.eq_dec b 0) as [->|]; [simpl; lia | apply Z.log2_lt_pow2; lia].
Qed.

Lemma land_lnot_below (n a m : Z) :
  0 <= a < 2 ^ n -> 0 <= m -> 0 <= Z.land a (Z.lnot m) < 2 ^ n.
Proof.
  intros Ha Hm. split; [apply Z.land_nonneg; lia|].
  rewrite <- Z.sub_lor_l_same_l.
  pose proof (Z.add_lor_land m a) as Hadd.
  assert (0 <= Z.land m a) by (apply Z.land_nonneg; lia). lia.
Qed.

(** The identifier drawn by [uuid.uuid4()] is a 128-bit number. *)
Lemma uuid4_range (random : Z) : 0 <= UUID.uuid4 random < 2 ^ 128.
Proof.
  unfold UUID.uuid4.
  assert (0 <= random mod 2 ^ 128 < 2 ^ 128) as H0 by (apply Z.mod_pos_bound; lia).
  assert (forall c, (0 <=? c) && (c <? 2 ^ 128) = true -> 0 <= c < 2 ^ 128) as Hc
      by (intros c [?%Z.leb_le ?%Z.ltb_lt]%andb_prop; done).
  apply lor_below; [|by apply Hc].
  apply land_lnot_below; [|by apply Z.leb_le].
  apply lor_below; [|by apply Hc].
  apply land_lnot_below; [exact H0 | by apply Z.leb_le].
Qed.

End StringFacts.

(** ** Paths, names and routing *)

Section PathFacts.
Context `{Imaging}.
Variable cfg : config.
Variable e : env.

Lemma folder_of_endswith (service_name : string) (year : Z) (category : string) :
  PyStr.endswith "/" (folder_of cfg service_name year category) = true.
Proof.
  unfold folder_of.
  repeat (rewrite endswith_app;
          [|repeat first [discriminate | apply app_nonempty_r]]).
  reflexivity.
Qed.

Lemma stored_at_folder (service_name category final_ext : string) :
  stored_at cfg e service_name category (unique_name e final_ext)
  = folder_of cfg service_name (dt_year (clock_year e)) category
    +:+ unique_name e final_ext.
Proof.
  unfold stored_at. apply path_join_relative; [apply folder_of_endswith|].
  unfold unique_name. apply strftime_not_absolute.
Qed.

Lemma extension_no_dot (name : string) :
  PyStr.contains "." name = false -> extension name = "jpg".
Proof. intros Hdot. unfold extension. by rewrite Hdot. Qed.

Lemma extension_dot (name : string) :
  PyStr.contains "." name = true ->
  extension name = PyStr.lower (PyStr.last_field "." name).
Proof. intros Hdot. unfold extension. by rewrite Hdot. Qed.

(** C7, as amended. For every successful upload the storage directory is
    <root>/<tenantId>/<year>/<category>/ with <year> the calendar year,
    in 4 digits, of the clock reading of step 6; the file name is
    <YYYYMMDD>_<HHMMSS>_<token>.<extension> with the timestamp of the
    second clock reading, of step 9, and the token the text of a 128-bit
    identifier; the file is stored in that directory under that name; and
    the URL is <tenantPublicBaseUrl>/<tenantId>/<year>/<category>/<name>
    with the same year and name. *)
Theorem storage_path_and_url (service_name category : string) (f : UploadFile)
    (api_key : option string) (w w' : world) (resp : response) :
  upload_image cfg e service_name category f api_key w = (w', Ok resp) ->
  1000 <= dt_year (clock_year e) <= 9999 ->
  valid_datetime (clock_stamp e) ->
  1000 <= dt_year (clock_stamp e) ->
  let year := PyStr.str_int (dt_year (clock_year e)) in
  let folder :=
    fstr (BASE_DIR cfg) +:+ "/" +:+ service_name +:+ "/" +:+ year +:+ "/"
    +:+ category +:+ "/" in
  String.length year = 4%nat /\
  folder ∈ dirs w' /\
  String.length (strftime (clock_stamp e)) = 15%nat /\
  0 <= UUID.uuid4 (urandom e) < 2 ^ 128 /\
  exists final_ext processed base,
    file resp = strftime (clock_stamp e) +:+ "_"
                +:+ UUID.str (UUID.uuid4 (urandom e)) +:+ "." +:+ final_ext /\
    files w' !! (folder +:+ file resp) = Some processed /\
    CDN_URL_MAP cfg !! service_name = Some (Some base) /\
    url resp = base +:+ "/" +:+ service_name +:+ "/" +:+ year +:+ "/"
               +:+ category +:+ "/" +:+ file resp.
Proof.
  intros Hrun Hyear Hstamp Hstamp_year year folder.
  apply upload_image_Ok in Hrun
    as (_ & processed & final_ext & base & _ & _ & Hbase & _ & Hdirs & Hfiles & ->).
  split; [by apply str_int_year|]. split.
  { rewrite Hdirs. cbn [with_folder dirs].
    apply elem_of_union_l, elem_of_singleton. reflexivity. }
  split; [by apply strftime_length|].
  split; [apply uuid4_range|].
  exists final_ext, processed, base. cbn [file url].
  split; [reflexivity|]. split; [|by split].
  rewrite Hfiles, stored_at_folder. apply lookup_insert_eq.
Qed.

(** C8, as amended. A payload goes through the re-encoder exactly when
    the text after the last dot of its file name is, in lower case, jpg,
    jpeg or png, or when the name has no dot at all; what is then stored
    is the re-encoder's output under the extension jpg. Every other
    payload is stored byte for byte under its own extension in lower
    case. *)
Theorem extension_routing (service_name category : string) (f : UploadFile)
    (api_key : option string) (w : world) :
  (extension (filename f) ∈ ["jpg"; "jpeg"; "png"] <->
   PyStr.contains "." (filename f) = false \/
   PyStr.lower (PyStr.last_field "." (filename f)) ∈ ["jpg"; "jpeg"; "png"]) /\
  (forall w' resp,
      upload_image cfg e service_name category f api_key w = (w', Ok resp) ->
      (extension (filename f) ∈ ["jpg"; "jpeg"; "png"] ->
       exists processed,
         compress_image (MAX_SIZE cfg) (content f) = Ok processed /\
         file resp = unique_name e "jpg" /\
         files w' !! stored_at cfg e service_name category (file resp) = Some processed) /\
      (extension (filename f) ∉ ["jpg"; "jpeg"; "png"] ->
       file resp = unique_name e (PyStr.lower (PyStr.last_field "." (filename f))) /\
       files w' !! stored_at cfg e service_name category (file resp)
       = Some (content f))).
Proof.
  split.
  - destruct (PyStr.contains "." (filename f)) eqn:Hdot.
    + rewrite (extension_dot _ Hdot). split; [by right | by intros [?|?]].
    + rewrite (extension_no_dot _ Hdot).
      split; [by left | intros _; apply list_elem_of_here].
  - intros w' resp Hrun.
    apply upload_image_Ok in Hrun
      as (_ & processed & final_ext & base & Hproc & _ & _ & _ & _ & Hfiles & ->).
    cbn [file]. rewrite Hfiles, lookup_insert_eq. split; intros Hext.
    + rewrite (process_reencode _ _ _ Hext) in Hproc.
      destruct (compress_image _ _) as [out|]; [|discriminate].
      injection Hproc as <- <-. by exists out.
    + rewrite (process_passthrough _ _ _ Hext) in Hproc.
      injection Hproc as <- <-. split; [|reflexivity].
      destruct (PyStr.contains "." (filename f)) eqn:Hdot.
      * by rewrite (extension_dot _ Hdot).
      * rewrite (extension_no_dot _ Hdot) in Hext. set_solver.
Qed.

(** C10. A file name without any dot gets the extension jpg, so its
    payload is handed to [compress_image]: an upload that passed
    validation and got its directory fails with the decoder's error when
    the payload is no image, and a successful one has stored the
    re-encoded bytes under a name ending in .jpg. *)
Theorem missing_extension_is_reencoded (service_name category : string)
    (f : UploadFile) (api_key : option string) (w : world) :
  PyStr.contains "." (filename f) = false ->
  extension (filename f) = "jpg" /\
  process cfg (extension (filename f)) (content f)
  = match compress_image (MAX_SIZE cfg) (content f) with
    | Ok processed => Ok (processed, "jpg")
    | Raise ex => Raise ex
    end /\
  (forall ex,
      first_failure (checks cfg service_name category api_key) = None ->
      Image_open (content f) = Raise ex ->
      (upload_image cfg e service_name category f api_key w).2
      = Raise (if makedirs_fails e then OSError else ex)) /\
  (forall w' resp,
      upload_image cfg e service_name category f api_key w = (w', Ok resp) ->
      exists img processed,
        Image_open (content f) = Ok img /\
        compress_image (MAX_SIZE cfg) (content f) = Ok processed /\
        file resp = unique_name e "jpg" /\
        files w' !! stored_at cfg e service_name category (file resp) = Some processed).
Proof.
  intros Hdot. pose proof (extension_no_dot _ Hdot) as Hext.
  assert (process cfg (extension (filename f)) (content f)
          = match compress_image (MAX_SIZE cfg) (content f) with
            | Ok processed => Ok (processed, "jpg")
            | Raise ex => Raise ex
            end) as Hproc.
  { apply process_reencode. rewrite Hext. set_solver. }
  split; [exact Hext|]. split; [exact Hproc|]. split.
  - intros ex Hval Hopen. rewrite upload_image_run, Hval. unfold after_validation.
    rewrite Hproc, (compress_image_undecodable _ _ _ Hopen).
    by destruct (makedirs_fails e).
  - intros w' resp Hrun.
    apply upload_image_Ok in Hrun
      as (_ & processed & final_ext & base & Hproc' & _ & _ & _ & _ & Hfiles & ->).
    rewrite Hproc in Hproc'.
    destruct (compress_image _ _) as [out|] eqn:Hout; [|discriminate].
    injection Hproc' as <- <-.
    destruct (compress_image_Ok_decodable _ _ _ Hout) as (img & _ & Himg & _).
    exists img, out. cbn [file]. rewrite Hfiles, lookup_insert_eq. done.
Qed.

End PathFacts.

(** ** The properties at concrete requests *)

Section Examples.

Lemma compress_image_search_witness :
  (exists data,
      @save_JPEG stub_imaging rgb_image 85 = Ok data /\
      @compress_image stub_imaging 1024 rgb_png = Ok data /\
      tell data <= 1024) /\
  (exists data,
      @save_JPEG stub_imaging rgb_image 45 = Ok data /\
      @compress_image stub_imaging 0 rgb_png = Ok data /\
      (@compress_image_trace stub_imaging 0 rgb_png).1 = quality_ladder /\
      0 < tell data).
Proof.
  split.
  - destruct (@compress_image_search stub_imaging 1024 rgb_png rgb_image rgb_image)
      as (_ & Hfit & _); [(vm_compute; reflexivity) ..|].
    apply (Hfit 85). vm_compute. reflexivity.
  - destruct (@compress_image_search stub_imaging 0 rgb_png rgb_image rgb_image)
      as (_ & _ & Hnone); [(vm_compute; reflexivity) ..|].
    apply Hnone. vm_compute. reflexivity.
Defined.

(** C1 as stated fails: a PNG file in grey with alpha is decodable, its
    mode LA is not one that [compress_image] converts, and the JPEG
    encoder refuses it at the first quality: [compress_image] raises
    instead of returning an encoding. *)
Lemma grey_alpha_png_is_not_encoded :
  (exists img, @Image_open stub_imaging la_png = Ok img /\
               @mode stub_imaging img = "LA" /\
               @normalise stub_imaging img = Ok img) /\
  @compress_image_trace stub_imaging 1024 la_png = ([85], Raise OSError) /\
  ~ (exists out, @compress_image stub_imaging 1024 la_png = Ok out).
Proof.
  split; [|split].
  - exists {| stub_mode := "LA"; stub_data := la_png |}.
    repeat split; vm_compute; reflexivity.
  - vm_compute. reflexivity.
  - intros [out Hout]. vm_compute in Hout. discriminate.
Qed.

Lemma compress_image_terminates_witness :
  (@compress_image_trace stub_imaging 0 rgb_png).1 `prefix_of` quality_ladder /\
  (List.length (@compress_image_trace stub_imaging 0 rgb_png).1 <= 10)%nat /\
  exists q, last (@compress_image_trace stub_imaging 0 rgb_png).1 = Some q /\
            @compress_image stub_imaging 0 rgb_png = @save_JPEG stub_imaging rgb_image q.
Proof.
  destruct (@compress_image_terminates stub_imaging 0 rgb_png rgb_image)
    as (Hpre & Hlen & _ & _ & Hlast & _); [vm_compute; reflexivity|].
  split; [exact Hpre|]. split; [exact Hlen|].
  apply (Hlast rgb_image). vm_compute. reflexivity.
Defined.

(** The loop exhausts the ladder in nine encodings when nothing fits. *)
Example nine_encodings :
  (@compress_image_trace stub_imaging 0 rgb_png).1 = quality_ladder.
Proof. vm_compute. reflexivity. Qed.

(** C2 as stated fails: a payload named .jpg that is no image makes the
    request fail, and nothing is stored. *)
Lemma undecodable_jpg_fails_upload :
  extension (filename notes_jpg) ∈ ["jpg"; "jpeg"; "png"] /\
  @Image_open stub_imaging (content notes_jpg) = Raise UnidentifiedImageError /\
  (run demo_config demo_env "ukaisyndrome" "tryout" notes_jpg (Some "k-ukai")).2
  = Raise UnidentifiedImageError /\
  files (run demo_config demo_env "ukaisyndrome" "tryout" notes_jpg (Some "k-ukai")).1
  = ∅.
Proof.
  split; [apply list_elem_of_here|]. split; [reflexivity|].
  split; vm_compute; reflexivity.
Qed.

Lemma undecodable_image_fails_request_witness :
  files (run demo_config demo_env "ukaisyndrome" "tryout" notes_jpg (Some "k-ukai")).1
  = files empty_world.
Proof.
  apply (@undecodable_image_fails_request stub_imaging demo_config demo_env
           "ukaisyndrome" "tryout" notes_jpg (Some "k-ukai") empty_world
           UnidentifiedImageError).
  - vm_compute. reflexivity.
  - apply list_elem_of_here.
  - reflexivity.
Defined.

(** C3 as stated fails: when the device is full the write fails, the
    request fails with it, and the file that [open] created stays at the
    final path with zero bytes. The payload is stored as it came, so no
    imaging library has a part in this. *)
Lemma full_disk_leaves_empty_file :
  (extension (filename report_pdf) ∉ ["jpg"; "jpeg"; "png"]) /\
  (run demo_config full_disk_env "ukaisyndrome" "tryout" report_pdf (Some "k-ukai")).2
  = Raise OSError /\
  files (run demo_config full_disk_env "ukaisyndrome" "tryout" report_pdf (Some "k-ukai")).1
  !! ("/srv/cdn/ukaisyndrome/2025/tryout/" +:+ demo_name "pdf")
  = Some [].
Proof.
  split.
  - intros Hin. vm_compute in Hin. apply list_elem_of_In in Hin. cbn in Hin.
    repeat (destruct Hin as [Hin|Hin]; [discriminate|]). destruct Hin.
  - split; vm_compute; reflexivity.
Qed.

(** For a tenant without base URL the request fails with status 500
    after the complete file has been written. *)
Example unconfigured_url_leaves_file :
  CDN_URL_MAP demo_config !! "absensi-berkah" = Some None /\
  (run demo_config demo_env "absensi-berkah" "wajah" report_pdf (Some "k-absen")).2
  = Raise (HTTPException 500 "CDN URL not configured") /\
  files (run demo_config demo_env "absensi-berkah" "wajah" report_pdf (Some "k-absen")).1
  !! ("/srv/cdn/absensi-berkah/2025/wajah/" +:+ demo_name "pdf")
  = Some text_payload.
Proof. repeat split; vm_compute; reflexivity. Qed.

(** An extension with a path separator names a directory that is not
    there: [open] raises and no file is written. *)
Example separator_in_extension_opens_no_file :
  extension (filename archive) = "d/e" /\
  run demo_config demo_env "ukaisyndrome" "tryout" archive (Some "k-ukai")
  = (with_folder demo_config demo_env "ukaisyndrome" "tryout" empty_world,
     Raise OSError).
Proof. split; vm_compute; reflexivity. Qed.

(** A decodable image that the encoder refuses fails the request after
    the directory was created, and no file is written. *)
Example grey_alpha_png_fails_upload :
  run demo_config demo_env "ukaisyndrome" "tryout" grey_png (Some "k-ukai")
  = (with_folder demo_config demo_env "ukaisyndrome" "tryout" empty_world,
     Raise OSError).
Proof. vm_compute. reflexivity. Qed.

Lemma failed_upload_writes_no_file_witness :
  (exists processed final_ext base,
      @process stub_imaging demo_config (extension (filename photo_png))
        (content photo_png) = Ok (processed, final_ext) /\
      file demo_response = unique_name demo_env final_ext /\
      files (run demo_config demo_env "ukaisyndrome" "tryout" photo_png (Some "k-ukai")).1
      = <[stored_at demo_config demo_env "ukaisyndrome" "tryout" (file demo_response)
          := processed]> (files empty_world) /\
      size demo_response = Z.of_nat (List.length processed) /\
      CDN_URL_MAP demo_config !! "ukaisyndrome" = Some (Some base) /\
      url demo_response
      = base +:+ "/" +:+ "ukaisyndrome" +:+ "/"
        +:+ PyStr.str_int (dt_year (clock_year demo_env)) +:+ "/" +:+ "tryout"
        +:+ "/" +:+ file demo_response) /\
  run demo_config demo_env "ukaisyndrome" "video" photo_png (Some "k-ukai")
  = (empty_world, Raise (HTTPException 400 "Invalid category")) /\
  run demo_config demo_env "ukaisyndrome" "tryout" notes_jpg (Some "k-ukai")
  = (with_folder demo_config demo_env "ukaisyndrome" "tryout" empty_world,
     Raise UnidentifiedImageError) /\
  run demo_config full_disk_env "ukaisyndrome" "tryout" report_pdf (Some "k-ukai")
  = ({| dirs := dirs (with_folder demo_config full_disk_env "ukaisyndrome" "tryout"
                        empty_world);
        files := <[stored_at demo_config full_disk_env "ukaisyndrome" "tryout"
                     (unique_name full_disk_env "pdf") := []]> (files empty_world) |},
     Raise OSError).
Proof.
  split; [|split; [|split]].
  - apply (proj1 (@failed_upload_writes_no_file stub_imaging demo_config demo_env
                    "ukaisyndrome" "tryout" photo_png (Some "k-ukai") empty_world)
             _ demo_response).
    vm_compute. reflexivity.
  - apply (proj1 (proj2 (proj2
             (@failed_upload_writes_no_file stub_imaging demo_config demo_env
                "ukaisyndrome" "video" photo_png (Some "k-ukai") empty_world)))).
    vm_compute. reflexivity.
  - apply (proj1 (proj2 (proj2 (proj2 (proj2
             (@failed_upload_writes_no_file stub_imaging demo_config demo_env
                "ukaisyndrome" "tryout" notes_jpg (Some "k-ukai") empty_world)))))).
    + vm_compute. reflexivity.
    + reflexivity.
    + vm_compute. reflexivity.
  - apply (proj2 (proj2 (proj2 (proj2 (proj2 (proj2
             (@failed_upload_writes_no_file stub_imaging demo_config full_disk_env
                "ukaisyndrome" "tryout" report_pdf (Some "k-ukai") empty_world))))))
             text_payload "pdf" []).
    + vm_compute. reflexivity.
    + reflexivity.
    + vm_compute. reflexivity.
    + reflexivity.
    + vm_compute. reflexivity.
    + vm_compute. reflexivity.
Defined.

(** The order of the checks at work: each request fails several checks
    and is answered with the error of the earliest one. *)
Example order_missing_key :
  run demo_config demo_env "nosuch" "../x" photo_png None
  = (empty_world, Raise (HTTPException 403 "API key required")).
Proof. reflexivity. Qed.

Example order_unknown_tenant :
  run demo_config demo_env "../nosuch" "video" photo_png (Some "k-ukai")
  = (empty_world, Raise (HTTPException 403 "Invalid service")).
Proof. reflexivity. Qed.

Example order_wrong_key :
  run demo_config demo_env "ukaisyndrome" "video" photo_png (Some "k-absen")
  = (empty_world, Raise (HTTPException 403 "Unauthorized API key")).
Proof. vm_compute. reflexivity. Qed.

Example order_bad_category :
  run demo_config demo_env "ukaisyndrome" "../video" photo_png (Some "k-ukai")
  = (empty_world, Raise (HTTPException 400 "Invalid category")).
Proof. vm_compute. reflexivity. Qed.

(** C5 as stated fails: a segment of underscores only consists of
    allowed characters, and nothing is left of it to be non-alphanumeric,
    yet it is rejected. *)
Lemma underscore_segment_rejected :
  (forall c, In c (PyStr.chars "_") -> allowed_char c = true) /\
  (forall c, In c (PyStr.chars (PyStr.remove_char "-" (PyStr.remove_char "_" "_"))) ->
             PyStr.isalnum_char c = true) /\
  sanitize_segment "_" = Raise (HTTPException 400 "Invalid folder name").
Proof.
  split; [intros c [<-|[]]; reflexivity|].
  split; [intros c []|reflexivity].
Qed.

Lemma sanitize_segment_accepts_witness :
  sanitize_segment "absensi-berkah_2" = Ok "absensi-berkah_2" /\
  sanitize_segment "a/../b" = Raise (HTTPException 400 "Invalid folder name").
Proof.
  split.
  - apply (proj2 (proj1 (sanitize_segment_accepts "absensi-berkah_2"))). split.
    + intros c Hc. cbn in Hc.
      repeat (destruct Hc as [<-|Hc]; [reflexivity|]). destruct Hc.
    + exists "a"%char. split; [by left | reflexivity].
  - apply (proj2 (proj2 (sanitize_segment_accepts "a/../b")) "/"%char).
    + cbn. tauto.
    + cbn. tauto.
Defined.

(** C6 as stated fails: the two rejections carry different details. *)
Lemma tenant_rejections_differ :
  ALLOWED_KEYS demo_config !! "nosuch" = None /\
  ALLOWED_KEYS demo_config !! "ukaisyndrome" = Some (Some "k-ukai") /\
  (run demo_config demo_env "nosuch" "tryout" photo_png (Some "guess")).2
  = Raise (HTTPException 403 "Invalid service") /\
  (run demo_config demo_env "ukaisyndrome" "tryout" photo_png (Some "guess")).2
  = Raise (HTTPException 403 "Unauthorized API key") /\
  (run demo_config demo_env "nosuch" "tryout" photo_png (Some "guess")).2
  <> (run demo_config demo_env "ukaisyndrome" "tryout" photo_png (Some "guess")).2.
Proof.
  assert ((run demo_config demo_env "nosuch" "tryout" photo_png (Some "guess")).2
          = Raise (HTTPException 403 "Invalid service")) as H1
      by (vm_compute; reflexivity).
  assert ((run demo_config demo_env "ukaisyndrome" "tryout" photo_png (Some "guess")).2
          = Raise (HTTPException 403 "Unauthorized API key")) as H2
      by (vm_compute; reflexivity).
  split; [vm_compute; reflexivity|]. split; [vm_compute; reflexivity|].
  split; [exact H1|]. split; [exact H2|].
  rewrite H1, H2. discriminate.
Qed.

Lemma tenant_rejections_share_status_only_witness :
  run demo_config demo_env "nosuch" "tryout" photo_png (Some "guess")
  = (empty_world, Raise (HTTPException 403 "Invalid service")) /\
  run demo_config demo_env "ukaisyndrome" "tryout" photo_png (Some "guess")
  = (empty_world, Raise (HTTPException 403 "Unauthorized API key")).
Proof.
  apply (@tenant_rejections_share_status_only stub_imaging demo_config demo_env
           "nosuch" "tryout" photo_png (Some "guess")
           "ukaisyndrome" "tryout" photo_png (Some "guess")
           (Some "k-ukai") empty_world empty_world).
  - reflexivity.
  - vm_compute. reflexivity.
  - reflexivity.
  - vm_compute. reflexivity.
  - discriminate.
Defined.

(** C7 as stated fails: across midnight of New Year's Eve the directory
    carries the year 2025 and the file name the date 20260101, and no
    single instant has both. The payload is stored as it came, so no
    imaging library has a part in this. *)
Lemma year_and_stamp_disagree :
  (exists resp,
      (run demo_config new_year_env "ukaisyndrome" "tryout" report_pdf (Some "k-ukai")).2
      = Ok resp /\
      file resp = "20260101_000000_01234567-89ab-4def-8123-456789abcdef.pdf" /\
      url resp = "https://cdn.ukai.example/ukaisyndrome/2025/tryout/"
                 +:+ "20260101_000000_01234567-89ab-4def-8123-456789abcdef.pdf") /\
  files (run demo_config new_year_env "ukaisyndrome" "tryout" report_pdf
           (Some "k-ukai")).1
  !! ("/srv/cdn/ukaisyndrome/2025/tryout/"
      +:+ "20260101_000000_01234567-89ab-4def-8123-456789abcdef.pdf")
  = Some (content report_pdf) /\
  ~ (exists now : datetime,
        PyStr.str_int (dt_year now) = "2025" /\ strftime now = "20260101_000000").
Proof.
  split; [|split].
  - eexists. split; [vm_compute; reflexivity|]. split; reflexivity.
  - vm_compute. reflexivity.
  - intros (now & Hyear & Hstamp). unfold strftime, pad in Hstamp.
    rewrite Hyear in Hstamp.
    cbv [PyStr.zfill String.length Nat.sub PyStr.zeros] in Hstamp.
    rewrite app_empty_l, !app_String in Hstamp. discriminate.
Qed.

Lemma storage_path_and_url_witness :
  String.length (PyStr.str_int 2025) = 4%nat /\
  "/srv/cdn/ukaisyndrome/2025/tryout/"
  ∈ dirs (run demo_config demo_env "ukaisyndrome" "tryout" photo_png (Some "k-ukai")).1 /\
  String.length (strftime (clock_stamp demo_env)) = 15%nat.
Proof.
  destruct (@storage_path_and_url stub_imaging demo_config demo_env
              "ukaisyndrome" "tryout" photo_png (Some "k-ukai") empty_world
              (run demo_config demo_env "ukaisyndrome" "tryout" photo_png
                 (Some "k-ukai")).1
              demo_response)
    as (Hlen & Hdir & Hstamp & _).
  - vm_compute. reflexivity.
  - simpl. lia.
  - unfold valid_datetime. simpl. lia.
  - simpl. lia.
  - split; [exact Hlen|]. split; [exact Hdir | exact Hstamp].
Defined.

(** C8 as stated fails: an upper-case extension is stored in lower case,
    and a file name without extension is re-encoded and stored as .jpg. *)
Lemma routing_exceptions :
  PyStr.last_field "." (filename report_pdf) = "PDF" /\
  (exists resp,
      (run demo_config demo_env "ukaisyndrome" "tryout" report_pdf (Some "k-ukai")).2
      = Ok resp /\
      file resp = demo_name "pdf") /\
  PyStr.contains "." (filename readme) = false /\
  exists resp stored,
    (run demo_config demo_env "ukaisyndrome" "tryout" readme (Some "k-ukai")).2
    = Ok resp /\
    file resp = demo_name "jpg" /\
    files (run demo_config demo_env "ukaisyndrome" "tryout" readme (Some "k-ukai")).1
    !! ("/srv/cdn/ukaisyndrome/2025/tryout/" +:+ demo_name "jpg")
    = Some stored /\
    stored <> content readme.
Proof.
  split; [reflexivity|]. split.
  { eexists. split; [vm_compute; reflexivity | reflexivity]. }
  split; [reflexivity|].
  exists demo_response, (stub_encoding (content readme) 85).
  split; [vm_compute; reflexivity|]. split; [reflexivity|].
  split; [vm_compute; reflexivity|].
  intros Heq. apply (f_equal (@List.length _)) in Heq. vm_compute in Heq.
  discriminate.
Qed.

Lemma extension_routing_witness :
  exists processed,
    @compress_image stub_imaging (MAX_SIZE demo_config) (content photo_png) = Ok processed /\
    file demo_response = unique_name demo_env "jpg" /\
    files (run demo_config demo_env "ukaisyndrome" "tryout" photo_png (Some "k-ukai")).1
    !! stored_at demo_config demo_env "ukaisyndrome" "tryout" (file demo_response)
    = Some processed.
Proof.
  apply (proj2 (@extension_routing stub_imaging demo_config demo_env
                  "ukaisyndrome" "tryout" photo_png (Some "k-ukai") empty_world)
           (run demo_config demo_env "ukaisyndrome" "tryout" photo_png
              (Some "k-ukai")).1
           demo_response).
  - vm_compute. reflexivity.
  - apply list_elem_of_further, list_elem_of_further, list_elem_of_here.
Defined.

Lemma missing_extension_is_reencoded_witness :
  extension (filename readme) = "jpg" /\
  @process stub_imaging demo_config (extension (filename readme)) (content readme)
  = Ok (stub_encoding (content readme) 85, "jpg").
Proof.
  destruct (@missing_extension_is_reencoded stub_imaging demo_config demo_env
              "ukaisyndrome" "tryout" readme (Some "k-ukai") empty_world)
    as (Hext & Hproc & _); [reflexivity|].
  split; [exact Hext|]. rewrite Hproc. vm_compute. reflexivity.
Defined.

End Examples.

(** * Further properties of the code *)

Section CompressMore.
Context `{Imaging}.
Variable MAX : Z.

(** An error out of the loop is the encoder's at a quality the loop
    tried, unless the loop was entered at 40 or less with no buffer. *)
Lemma compress_loop_Raise (img : image) (n : nat) :
  forall (q : Z) (buffer : option bytes) (ex : exn),
    Z.to_nat (q - 40) = n ->
    (compress_loop MAX img q buffer).2 = Raise ex ->
    (q <= 40 /\ buffer = None /\ ex = UnboundLocalError) \/
    (exists q', In q' (compress_loop MAX img q buffer).1 /\
                save_JPEG img q' = Raise ex).
Proof.
  induction n as [n IH] using lt_wf_ind. intros q buffer ex Hn.
  rewrite compress_loop_body.
  destruct (decide (q > 40)) as [Hq|Hq].
  - destruct (save_JPEG img q) as [data|ex'] eqn:Hsave.
    + destruct (tell data <=? MAX); [discriminate|]. cbn [fst snd]. intros Hrec.
      apply (IH (Z.to_nat (q - 5 - 40)) ltac:(lia) _ _ _ eq_refl) in Hrec
        as [(_ & [=] & _)|(q' & Hin & Hq')].
      right. exists q'. split; [by right | done].
    + cbn [fst snd]. intros [= <-]. right. exists q. split; [by left | done].
  - cbn [snd]. destruct buffer; [discriminate|]. intros [= <-].
    left. repeat split; lia.
Qed.

Lemma compress_image_decoded_result (image_bytes : bytes) (img0 img : image) :
  Image_open image_bytes = Ok img0 ->
  normalise img0 = Ok img ->
  compress_image MAX image_bytes =
  match find (stops MAX img) quality_ladder with
  | Some q => save_JPEG img q
  | None => save_JPEG img 45
  end.
Proof.
  intros Hopen Hnorm. unfold compress_image.
  by rewrite (compress_image_trace_decoded MAX _ _ _ Hopen Hnorm).
Qed.

Lemma compress_image_last (image_bytes : bytes) (img0 img : image) :
  Image_open image_bytes = Ok img0 ->
  normalise img0 = Ok img ->
  exists q, q ∈ quality_ladder /\
            last (compress_image_trace MAX image_bytes).1 = Some q /\
            compress_image MAX image_bytes = save_JPEG img q.
Proof.
  intros Hopen Hnorm. unfold compress_image.
  rewrite (compress_image_trace_decoded MAX _ _ _ Hopen Hnorm). cbn [fst snd].
  rewrite tries_last.
  destruct (find (stops MAX img) quality_ladder) as [q|] eqn:Hfind.
  - exists q. split; [|done].
    apply find_some in Hfind as [Hin _]. by apply list_elem_of_In.
  - exists 45. split; [|done].
    apply list_elem_of_In. unfold quality_ladder. cbn [ladder In]. lia.
Qed.

(** X1. [compress_image] fails exactly when the imaging library does,
    and with the library's error: when [Image.open] raises, when the
    conversion of an RGBA or P image raises, or when the JPEG encoder
    raises at the quality tried last. The [return buffer.getvalue()]
    after the loop never meets an unbound [buffer], because the loop,
    entered at 85, runs its body at least once: from the loop head in
    general an error that is not the encoder's arises only at a quality
    of 40 or less with no buffer yet. *)
Theorem compress_image_fails_only_in_library (image_bytes : bytes) (ex : exn) :
  (compress_image MAX image_bytes = Raise ex <->
   Image_open image_bytes = Raise ex \/
   exists img0,
     Image_open image_bytes = Ok img0 /\
     ((mode img0 ∈ ["RGBA"; "P"] /\ convert img0 "RGB" = Raise ex) \/
      exists img q,
        normalise img0 = Ok img /\ q ∈ quality_ladder /\
        last (compress_image_trace MAX image_bytes).1 = Some q /\
        save_JPEG img q = Raise ex)) /\
  (forall img q buffer ex',
      (compress_loop MAX img q buffer).2 = Raise ex' ->
      (q <= 40 /\ buffer = None /\ ex' = UnboundLocalError) \/
      (exists q', In q' (compress_loop MAX img q buffer).1 /\
                  save_JPEG img q' = Raise ex')).
Proof.
  split.
  - destruct (Image_open image_bytes) as [img0|ex0] eqn:Hopen.
    + destruct (normalise img0) as [img|ex1] eqn:Hnorm.
      * destruct (compress_image_last _ _ _ Hopen Hnorm) as (q & Hin & Hlast & Hres).
        rewrite Hres. split.
        -- intros Hsave. right. exists img0. split; [done|]. right.
           by exists img, q.
        -- intros [[=]|(img0' & [= <-] & [[Hmode Hconv]|(img' & q' & Hn & _ & Hl & Hs)])].
           ++ unfold normalise in Hnorm.
              rewrite bool_decide_eq_true_2 in Hnorm by done. congruence.
           ++ rewrite Hnorm in Hn. injection Hn as <-.
              rewrite Hlast in Hl. by injection Hl as <-.
      * assert (compress_image MAX image_bytes = Raise ex1) as ->.
        { unfold compress_image, compress_image_trace. rewrite Hopen.
          unfold normalise in Hnorm. by rewrite Hnorm. }
        assert (mode img0 ∈ ["RGBA"; "P"] /\ convert img0 "RGB" = Raise ex1)
          as [Hmode Hconv].
        { unfold normalise in Hnorm. by case_bool_decide. }
        split.
        -- intros [= <-]. right. exists img0. split; [done|]. by left.
        -- intros [[=]|(img0' & [= <-] & [[_ Hc]|(img' & q' & Hn & _)])];
             congruence.
    + unfold compress_image, compress_image_trace. rewrite Hopen. cbn [snd].
      split; [intros [= <-]; by left|].
      intros [[= <-]|(img0' & [=] & _)]. reflexivity.
  - intros img q buffer ex'. by apply (compress_loop_Raise img _ q buffer ex' eq_refl).
Qed.

(** X2. What [compress_image] returns for a decodable payload is always
    one of the nine ladder encodings of the normalised image, and it is
    within the budget exactly when some ladder quality gives an encoding
    within the budget: the result exceeds [MAX_SIZE] only if all nine
    do. *)
Theorem compress_image_budget (image_bytes : bytes) (img0 img : image) (out : bytes) :
  Image_open image_bytes = Ok img0 ->
  normalise img0 = Ok img ->
  compress_image MAX image_bytes = Ok out ->
  (exists q, q ∈ quality_ladder /\ save_JPEG img q = Ok out) /\
  (tell out <= MAX <->
   exists q data,
     q ∈ quality_ladder /\ save_JPEG img q = Ok data /\ tell data <= MAX).
Proof.
  intros Hopen Hnorm. rewrite (compress_image_decoded_result _ _ _ Hopen Hnorm).
  destruct (find _ _) as [q|] eqn:Hfind; intros Hout.
  - apply find_some in Hfind as [Hin Hstop].
    apply list_elem_of_In in Hin. unfold stops in Hstop. rewrite Hout in Hstop.
    assert (tell out <= MAX) as Hle by lia.
    split; [by exists q|]. split; [by exists q, out | done].
  - assert (45 ∈ quality_ladder) as H45.
    { apply list_elem_of_In. unfold quality_ladder. cbn [ladder In]. lia. }
    split; [by exists 45|].
    split.
    + intros Hle. by exists 45, out.
    + intros (q & data & Hin & Hsave & Hle). apply list_elem_of_In in Hin.
      pose proof (find_none _ _ Hfind q Hin) as Hno. unfold stops in Hno.
      rewrite Hsave in Hno. lia.
Qed.

End CompressMore.

Section UploadMore.
Context `{Imaging}.
Variable cfg : config.
Variable e : env.

Lemma checks_pass (service_name category : string) (api_key : option string) :
  first_failure (checks cfg service_name category api_key) = None <->
  truthy api_key = true /\
  ALLOWED_KEYS cfg !! service_name = Some api_key /\
  category ∈ default [] (ALLOWED_CATEGORIES cfg !! service_name) /\
  segment_ok service_name = true /\ segment_ok category = true.
Proof.
  unfold first_failure, checks. cbn [find fst snd].
  destruct (truthy api_key); cbn [negb fmap option_fmap option_map];
    [|split; [discriminate | by intros [[=] _]]].
  case_bool_decide as Hsome; cbn [negb];
    [|split; [discriminate | intros (_ & Hk & _); destruct Hsome; by rewrite Hk]].
  case_bool_decide as Hkey; cbn [negb];
    [|split; [discriminate | by intros (_ & Hk & _)]].
  case_bool_decide as Hcat; cbn [negb];
    [|split; [discriminate | by intros (_ & _ & Hc & _)]].
  destruct (segment_ok service_name); cbn [negb];
    [|split; [discriminate | by intros (_ & _ & _ & [=] & _)]].
  destruct (segment_ok category); cbn [negb];
    [|split; [discriminate | by intros (_ & _ & _ & _ & [=])]].
  split; [done|reflexivity].
Qed.

Lemma first_failure_status (service_name category : string)
    (api_key : option string) (ex : exn) :
  first_failure (checks cfg service_name category api_key) = Some ex ->
  exists status detail,
    ex = HTTPException status detail /\ (status = 403 \/ status = 400).
Proof.
  unfold first_failure, checks. cbn [find fst snd].
  repeat (match goal with
          | |- context [negb ?b] =>
              destruct b; cbn [negb fmap option_fmap option_map]
          end; [|intros [= <-]; eauto]).
  discriminate.
Qed.

Lemma truthy_true (o : option string) :
  truthy o = true <-> exists s, o = Some s /\ s <> "".
Proof.
  split; [apply truthy_Some|]. intros (s & -> & Hs). cbn [truthy].
  by destruct (String.eqb_spec s "").
Qed.

(** X3. Nothing happens without the tenant's credential: whenever a
    request succeeds, or changes the file system at all (a directory, a
    file, complete or not), the caller supplied a non-empty key equal to
    the key configured for that tenant, and the category is one of that
    tenant's. *)
Theorem effect_requires_credential (service_name category : string)
    (f : UploadFile) (api_key : option string) (w w' : world)
    (r : result response) :
  upload_image cfg e service_name category f api_key w = (w', r) ->
  w' <> w \/ (exists resp, r = Ok resp) ->
  exists key,
    api_key = Some key /\ key <> "" /\
    ALLOWED_KEYS cfg !! service_name = Some (Some key) /\
    category ∈ default [] (ALLOWED_CATEGORIES cfg !! service_name).
Proof.
  rewrite upload_image_run.
  destruct (first_failure _) as [ex|] eqn:Hval.
  - intros [= <- <-] [Hw|[resp [=]]]. by destruct Hw.
  - intros _ _. apply checks_pass in Hval as (Hkey & Hsvc & Hcat & _).
    apply truthy_true in Hkey as (key & -> & Hne). by exists key.
Qed.

(** X4. A tenant whose key is unset or empty is closed: every request
    that names it, whatever key it carries, is answered with status 403
    and leaves the file system as it was. *)
Theorem tenant_without_key_is_closed (service_name category : string)
    (f : UploadFile) (api_key key : option string) (w : world) :
  ALLOWED_KEYS cfg !! service_name = Some key ->
  truthy key = false ->
  exists detail,
    upload_image cfg e service_name category f api_key w
    = (w, Raise (HTTPException 403 detail)).
Proof.
  intros Hsvc Hkey. rewrite upload_image_run.
  unfold first_failure, checks. cbn [find fst snd]. rewrite Hsvc.
  destruct (truthy api_key) eqn:Hk; cbn [negb fmap option_fmap option_map];
    [|eauto].
  rewrite (bool_decide_eq_true_2 (is_Some (Some key))) by done. cbn [negb].
  rewrite (bool_decide_eq_false_2 (Some key = Some api_key)) by congruence.
  cbn [negb]. eauto.
Qed.

(** X5. A tenant whose public base URL is unset or empty never gets a
    successful upload, whatever the request. *)
Theorem tenant_without_url_never_succeeds (service_name category : string)
    (f : UploadFile) (api_key : option string) (w w' : world) (resp : response) :
  truthy (default None (CDN_URL_MAP cfg !! service_name)) = false ->
  upload_image cfg e service_name category f api_key w <> (w', Ok resp).
Proof.
  intros Hurl Hrun.
  apply upload_image_Ok in Hrun as (_ & _ & _ & base & _ & _ & Hbase & Hne & _).
  rewrite Hbase in Hurl. cbn in Hurl.
  by destruct (String.eqb_spec base "").
Qed.

End UploadMore.

Section MainTables.
Context `{Imaging}.
Variable getenv : string -> option string.
Variable max_upload_size : Z.

Lemma main_keys (service_name : string) :
  ALLOWED_KEYS (main_config getenv max_upload_size) !! service_name =
  if String.eqb service_name "ukaisyndrome" then Some (getenv "API_KEY_UKAISYNDROME")
  else if String.eqb service_name "absensi-berkah"
       then Some (getenv "API_KEY_ABSENSIBERKAH")
       else None.
Proof.
  cbn [main_config ALLOWED_KEYS].
  destruct (String.eqb_spec service_name "ukaisyndrome") as [->|Hu];
    [by rewrite lookup_insert_eq|].
  rewrite lookup_insert_ne by done.
  destruct (String.eqb_spec service_name "absensi-berkah") as [->|Ha];
    [by rewrite lookup_insert_eq|].
  by rewrite lookup_insert_ne.
Qed.

Lemma main_categories (service_name : string) :
  default [] (ALLOWED_CATEGORIES (main_config getenv max_upload_size) !! service_name) =
  if String.eqb service_name "ukaisyndrome" then ["tryout"; "materi"]
  else if String.eqb service_name "absensi-berkah"
       then ["wajah"; "sakit"; "izin"; "lembur"]
       else [].
Proof.
  cbn [main_config ALLOWED_CATEGORIES].
  destruct (String.eqb_spec service_name "ukaisyndrome") as [->|Hu];
    [by rewrite lookup_insert_eq|].
  rewrite lookup_insert_ne by done.
  destruct (String.eqb_spec service_name "absensi-berkah") as [->|Ha];
    [by rewrite lookup_insert_eq|].
  by rewrite lookup_insert_ne.
Qed.

Lemma listed_segments_ok (l : list string) (category : string) :
  forallb segment_ok l = true -> category ∈ l -> segment_ok category = true.
Proof.
  rewrite forallb_forall. intros Hall Hin. by apply Hall, list_elem_of_In.
Qed.

Lemma main_checks (service_name category : string) (api_key : option string) :
  first_failure (checks (main_config getenv max_upload_size) service_name category api_key)
  = None <->
  main_accepts getenv service_name category api_key = true.
Proof.
  rewrite checks_pass, main_keys, main_categories. unfold main_accepts.
  destruct (truthy api_key); cbn [andb]; [|split; [by intros [[=] _] | done]].
  destruct (String.eqb_spec service_name "ukaisyndrome") as [->|Hu].
  - cbn [andb orb]. rewrite orb_false_r, andb_true_iff, !bool_decide_eq_true.
    split.
    + intros (_ & [= Hk] & Hc & _). done.
    + intros [Hk Hc]. repeat split; [by rewrite Hk|done|].
      by apply (fun Hall => listed_segments_ok _ _ Hall Hc).
  - cbn [andb orb].
    destruct (String.eqb_spec service_name "absensi-berkah") as [->|Ha].
    + cbn [andb]. rewrite andb_true_iff, !bool_decide_eq_true. split.
      * intros (_ & [= Hk] & Hc & _). done.
      * intros [Hk Hc]. repeat split; [by rewrite Hk|done|].
        by apply (fun Hall => listed_segments_ok _ _ Hall Hc).
    + cbn [andb]. split; [by intros (_ & [=] & _) | done].
Qed.

Lemma folder_name_failure (cfg : config) (service_name category : string)
    (api_key : option string) (status : Z) :
  first_failure (checks cfg service_name category api_key)
  = Some (HTTPException status "Invalid folder name") ->
  ALLOWED_KEYS cfg !! service_name = Some api_key /\
  category ∈ default [] (ALLOWED_CATEGORIES cfg !! service_name) /\
  (segment_ok service_name = false \/ segment_ok category = false).
Proof.
  unfold first_failure, checks. cbn [find fst snd].
  destruct (truthy api_key); cbn [negb fmap option_fmap option_map]; [|discriminate].
  case_bool_decide as Hsome; cbn [negb]; [|discriminate].
  case_bool_decide as Hkey; cbn [negb]; [|discriminate].
  case_bool_decide as Hcat; cbn [negb]; [|discriminate].
  destruct (segment_ok service_name); cbn [negb]; [|intros _; auto].
  destruct (segment_ok category); cbn [negb]; [discriminate | intros _; auto].
Qed.

Lemma main_segments_ok (service_name category : string) (api_key : option string) :
  ALLOWED_KEYS (main_config getenv max_upload_size) !! service_name = Some api_key ->
  category
  ∈ default [] (ALLOWED_CATEGORIES (main_config getenv max_upload_size) !! service_name) ->
  segment_ok service_name = true /\ segment_ok category = true.
Proof.
  rewrite main_keys, main_categories.
  destruct (String.eqb_spec service_name "ukaisyndrome") as [->|Hu].
  { intros _ Hc. split; [reflexivity | by apply (fun Hall => listed_segments_ok _ _ Hall Hc)]. }
  destruct (String.eqb_spec service_name "absensi-berkah") as [->|Ha].
  { intros _ Hc. split; [reflexivity | by apply (fun Hall => listed_segments_ok _ _ Hall Hc)]. }
  discriminate.
Qed.

(** X6. With the tables of [main.py] a request passes validation exactly
    when its key is non-empty and equal to the key of the named tenant
    and its category is one of that tenant's own: a category of the other
    tenant is refused. Every other request is rejected with status 403 or
    400 and no effect, and never with "Invalid folder name": the two
    tenants and their six categories all pass sanitization, so that check
    cannot fail. *)
Theorem main_tables_accept (e : env) (service_name category : string)
    (f : UploadFile) (api_key : option string) (w : world) :
  if main_accepts getenv service_name category api_key
  then upload_image (main_config getenv max_upload_size) e service_name category f
         api_key w
       = after_validation (main_config getenv max_upload_size) e service_name
           category f w
  else exists status detail,
      upload_image (main_config getenv max_upload_size) e service_name category f
        api_key w
      = (w, Raise (HTTPException status detail)) /\
      (status = 403 \/ status = 400) /\
      detail <> "Invalid folder name".
Proof.
  rewrite upload_image_run.
  destruct (main_accepts getenv service_name category api_key) eqn:Hacc.
  - apply main_checks in Hacc. by rewrite Hacc.
  - destruct (first_failure _) as [ex|] eqn:Hval;
      [|apply main_checks in Hval; congruence].
    destruct (first_failure_status _ _ _ _ _ Hval) as (status & detail & -> & Hst).
    exists status, detail. split; [reflexivity|]. split; [exact Hst|].
    intros ->. apply folder_name_failure in Hval as (Hkey & Hcat & Hseg).
    destruct (main_segments_ok _ _ _ Hkey Hcat) as [Hs Hc].
    destruct Hseg; congruence.
Qed.

End MainTables.

Section StoreFacts.
Context `{Imaging}.
Variable cfg : config.

Lemma prefix_empty (p : string) : String.prefix "" p = true.
Proof. by destruct p. Qed.

Lemma prefix_app (a b : string) : String.prefix a (a +:+ b) = true.
Proof.
  induction a as [|c a IH]; [apply prefix_empty|].
  rewrite app_String. cbn [String.prefix]. by destruct (ascii_dec c c).
Qed.

Lemma prefix_app_l (a b p : string) :
  String.prefix (a +:+ b) p = true -> String.prefix a p = true.
Proof.
  revert p. induction a as [|c a IH]; intros p; [intros _; apply prefix_empty|].
  rewrite app_String. destruct p as [|d p]; [done|]. cbn [String.prefix].
  destruct (ascii_dec c d); [apply IH | done].
Qed.

Lemma app_assoc_string (a b c : string) : (a +:+ b) +:+ c = a +:+ (b +:+ c).
Proof.
  induction a as [|d a IH]; [reflexivity|]. rewrite !app_String. by rewrite IH.
Qed.

Lemma folder_of_tenant_root (service_name : string) (year : Z) (category : string) :
  folder_of cfg service_name year category
  = tenant_root cfg service_name +:+ (PyStr.str_int year +:+ "/" +:+ category +:+ "/").
Proof. unfold folder_of, tenant_root. by rewrite !app_assoc_string. Qed.

Lemma stored_at_prefixes (e : env) (service_name category final_ext : string) :
  String.prefix (folder_of cfg service_name (dt_year (clock_year e)) category)
    (stored_at cfg e service_name category (unique_name e final_ext)) = true /\
  String.prefix (tenant_root cfg service_name)
    (stored_at cfg e service_name category (unique_name e final_ext)) = true.
Proof.
  rewrite stored_at_folder.
  assert (String.prefix (folder_of cfg service_name (dt_year (clock_year e)) category)
            (folder_of cfg service_name (dt_year (clock_year e)) category
             +:+ unique_name e final_ext) = true) as Hfolder by apply prefix_app.
  split; [exact Hfolder|].
  rewrite folder_of_tenant_root in Hfolder at 1. by apply prefix_app_l in Hfolder.
Qed.

(** X7. A request, whatever its outcome, removes no directory and
    changes no file outside its own directory
    <root>/<tenant>/<year>/<category>/, hence none outside the directory
    of its tenant: the files of other tenants, and every file elsewhere,
    are as they were. *)
Theorem upload_stays_in_its_directory (e : env) (service_name category : string)
    (f : UploadFile) (api_key : option string) (w w' : world)
    (r : result response) :
  upload_image cfg e service_name category f api_key w = (w', r) ->
  dirs w ⊆ dirs w' /\
  forall p,
    files w' !! p <> files w !! p ->
    String.prefix (folder_of cfg service_name (dt_year (clock_year e)) category) p = true /\
    String.prefix (tenant_root cfg service_name) p = true.
Proof.
  rewrite upload_image_run.
  destruct (first_failure _) as [ex|].
  { intros [= <- <-]. split; [done|]. intros p Hp. by destruct Hp. }
  unfold after_validation.
  assert (forall final_ext (data : bytes) p,
             <[path_join (folder_of cfg service_name (dt_year (clock_year e)) category)
                 (unique_name e final_ext) := data]> (files w) !! p <> files w !! p ->
             String.prefix (folder_of cfg service_name (dt_year (clock_year e)) category) p
             = true /\
             String.prefix (tenant_root cfg service_name) p = true) as Hins.
  { intros final_ext data p Hp.
    destruct (decide (stored_at cfg e service_name category (unique_name e final_ext) = p))
      as [<-|Hne]; [apply stored_at_prefixes|].
    unfold stored_at in Hne. by rewrite lookup_insert_ne in Hp. }
  destruct (makedirs_fails e).
  { intros [= <- <-]. split; [done|]. intros p Hp. by destruct Hp. }
  destruct (process cfg _ _) as [[processed final_ext]|ex].
  - destruct (open_fails e || negb _).
    { intros [= <- <-]. cbn [dirs files].
      split; [apply union_subseteq_r | by intros p Hp]. }
    destruct (cut_short _ _) as [written|]; [|destruct (truthy _)];
      intros [= <- <-]; cbn [dirs files];
      (split; [apply union_subseteq_r | apply Hins]).
  - intros [= <- <-]. cbn [dirs files].
    split; [apply union_subseteq_r | by intros p Hp].
Qed.

(** X8. The size limit applies to re-encoded images only. A payload whose
    extension is none of jpg, jpeg, png is handled the same whatever
    [MAX_UPLOAD_SIZE] is, and when its upload succeeds the reported size
    is the length of the payload as it came. *)
Theorem passthrough_ignores_size_limit (e : env) (service_name category : string)
    (f : UploadFile) (api_key : option string) (w : world) (m : Z) :
  extension (filename f) ∉ ["jpg"; "jpeg"; "png"] ->
  upload_image (with_max_upload_size cfg m) e service_name category f api_key w
  = upload_image cfg e service_name category f api_key w /\
  forall w' resp,
    upload_image cfg e service_name category f api_key w = (w', Ok resp) ->
    size resp = Z.of_nat (List.length (content f)).
Proof.
  intros Hext. split.
  - rewrite !upload_image_run.
    change (checks (with_max_upload_size cfg m) service_name category api_key)
      with (checks cfg service_name category api_key).
    destruct (first_failure _); [reflexivity|].
    unfold after_validation.
    by rewrite !(process_passthrough _ _ _ Hext).
  - intros w' resp Hrun.
    apply upload_image_Ok in Hrun
      as (_ & processed & final_ext & base & Hproc & _ & _ & _ & _ & _ & ->).
    rewrite (process_passthrough _ _ _ Hext) in Hproc. by injection Hproc as <- <-.
Qed.

(** X9. Two uploads, one after the other, both successful: each file is
    found at its path with the size reported for it, unless both paths
    are the same; then the later upload has replaced the earlier file,
    for the handler opens the path for writing without looking whether it
    exists. Every other file is as before the two uploads. *)
Theorem later_upload_replaces_same_path
    (e1 e2 : env) (service1 category1 service2 category2 : string)
    (f1 f2 : UploadFile) (api_key1 api_key2 : option string)
    (w w1 w2 : world) (resp1 resp2 : response) :
  upload_image cfg e1 service1 category1 f1 api_key1 w = (w1, Ok resp1) ->
  upload_image cfg e2 service2 category2 f2 api_key2 w1 = (w2, Ok resp2) ->
  let p1 := stored_at cfg e1 service1 category1 (file resp1) in
  let p2 := stored_at cfg e2 service2 category2 (file resp2) in
  exists b1 b2,
    files w1 !! p1 = Some b1 /\ size resp1 = Z.of_nat (List.length b1) /\
    files w2 !! p2 = Some b2 /\ size resp2 = Z.of_nat (List.length b2) /\
    (p1 <> p2 -> files w2 !! p1 = Some b1) /\
    (p1 = p2 -> files w2 !! p1 = Some b2) /\
    forall p, p <> p1 -> p <> p2 -> files w2 !! p = files w !! p.
Proof.
  intros Hrun1 Hrun2 p1 p2.
  apply upload_image_Ok in Hrun1
    as (_ & b1 & ext1 & base1 & _ & _ & _ & _ & _ & Hfiles1 & Hresp1).
  apply upload_image_Ok in Hrun2
    as (_ & b2 & ext2 & base2 & _ & _ & _ & _ & _ & Hfiles2 & Hresp2).
  subst resp1 resp2. cbn [file size] in *. subst p1 p2.
  exists b1, b2. rewrite Hfiles2, Hfiles1.
  split; [apply lookup_insert_eq|]. split; [reflexivity|].
  split; [apply lookup_insert_eq|]. split; [reflexivity|].
  split; [|split].
  - intros Hne. rewrite lookup_insert_ne by done. apply lookup_insert_eq.
  - intros ->. apply lookup_insert_eq.
  - intros p Hp1 Hp2. by rewrite !lookup_insert_ne.
Qed.

End StoreFacts.

Section ExtensionFacts.

Lemma lower_char_sep (c : ascii) :
  Ascii.eqb (PyStr.lower_char c) "." = Ascii.eqb c ".".
Proof. destruct c as [[] [] [] [] [] [] [] []]; reflexivity. Qed.

Lemma lower_char_idem (c : ascii) :
  PyStr.lower_char (PyStr.lower_char c) = PyStr.lower_char c.
Proof. destruct c as [[] [] [] [] [] [] [] []]; reflexivity. Qed.

Lemma lower_idem (s : string) : PyStr.lower (PyStr.lower s) = PyStr.lower s.
Proof.
  induction s as [|c s IH]; [reflexivity|].
  cbn [PyStr.lower]. by rewrite lower_char_idem, IH.
Qed.

Lemma contains_lower (s : string) :
  PyStr.contains "." (PyStr.lower s) = PyStr.contains "." s.
Proof.
  induction s as [|c s IH]; [reflexivity|].
  cbn [PyStr.lower PyStr.contains]. by rewrite lower_char_sep, IH.
Qed.

Lemma last_field_lower (s : string) :
  PyStr.last_field "." (PyStr.lower s) = PyStr.lower (PyStr.last_field "." s).
Proof.
  induction s as [|c s IH]; [reflexivity|].
  cbn [PyStr.lower PyStr.last_field]. rewrite lower_char_sep, contains_lower.
  destruct (Ascii.eqb c "."); [exact IH|].
  destruct (PyStr.contains "." s); [exact IH | reflexivity].
Qed.

Lemma last_field_clean (c : ascii) (s : string) :
  PyStr.contains c (PyStr.last_field c s) = false.
Proof.
  induction s as [|d s IH]; [reflexivity|]. cbn [PyStr.last_field].
  destruct (Ascii.eqb d c) eqn:Hd; [exact IH|].
  destruct (PyStr.contains c s) eqn:Hs; [exact IH|].
  cbn [PyStr.contains]. by rewrite Hd, Hs.
Qed.

Lemma last_field_whole (c : ascii) (s : string) :
  PyStr.contains c s = false -> PyStr.last_field c s = s.
Proof.
  destruct s as [|d s]; [reflexivity|]. cbn [PyStr.contains PyStr.last_field].
  intros [Hd Hs]%orb_false_elim. by rewrite Hd, Hs.
Qed.

Lemma contains_app (c : ascii) (a b : string) :
  PyStr.contains c (a +:+ b) = PyStr.contains c a || PyStr.contains c b.
Proof.
  induction a as [|d a IH]; [reflexivity|].
  rewrite app_String. cbn [PyStr.contains]. by rewrite IH, orb_assoc.
Qed.

Lemma last_field_after (c : ascii) (a b : string) :
  PyStr.contains c b = false -> PyStr.last_field c (a +:+ String c b) = b.
Proof.
  intros Hb. induction a as [|d a IH].
  - rewrite app_empty_l. cbn [PyStr.last_field]. rewrite Ascii.eqb_refl.
    by apply last_field_whole.
  - rewrite app_String. cbn [PyStr.last_field]. rewrite contains_app.
    cbn [PyStr.contains]. rewrite Ascii.eqb_refl, orb_true_r.
    by destruct (Ascii.eqb d c).
Qed.

Lemma last_field_split (c : ascii) (s : string) :
  PyStr.contains c s = true ->
  exists stem, s = stem +:+ String c (PyStr.last_field c s).
Proof.
  induction s as [|d s IH]; [discriminate|].
  cbn [PyStr.contains PyStr.last_field].
  destruct (PyStr.contains c s) eqn:Hs.
  - intros _. destruct (IH eq_refl) as [stem Hstem].
    exists (String d stem).
    destruct (Ascii.eqb d c); by rewrite app_String, <- Hstem.
  - rewrite orb_false_r. intros Hd. rewrite Hd.
    apply Ascii.eqb_eq in Hd as ->. exists "".
    by rewrite app_empty_l, (last_field_whole _ _ Hs).
Qed.

(** X10. The extension the handler derives from a file name never
    contains a dot and is in lower case: lower-casing it again changes
    nothing. *)
Theorem extension_shape (name : string) :
  PyStr.contains "." (extension name) = false /\
  PyStr.lower (extension name) = extension name.
Proof.
  unfold extension.
  destruct (PyStr.contains "." name); [|done].
  by rewrite contains_lower, last_field_clean, lower_idem.
Qed.

(** X11. The extension of a name with a dot is the text after its last
    dot, in lower case: of stem.ext it is ext in lower case whatever
    dots the stem has, and every name with a dot splits into a stem, a
    dot and that dot-free text. *)
Theorem extension_of_dotted_name (name : string) :
  (forall stem ext,
      name = stem +:+ "." +:+ ext -> PyStr.contains "." ext = false ->
      extension name = PyStr.lower ext) /\
  (PyStr.contains "." name = true ->
   exists stem,
     name = stem +:+ "." +:+ PyStr.last_field "." name /\
     extension name = PyStr.lower (PyStr.last_field "." name)).
Proof.
  split.
  - intros stem ext -> Hext. unfold extension.
    change ("." +:+ ext) with (String "." ext).
    rewrite contains_app. cbn [PyStr.contains]. rewrite Ascii.eqb_refl, orb_true_r.
    by rewrite (last_field_after _ _ _ Hext).
  - intros Hdot. destruct (last_field_split _ _ Hdot) as [stem Hstem].
    exists stem. split; [exact Hstem|]. unfold extension. by rewrite Hdot.
Qed.

End ExtensionFacts.

Section TokenFacts.

Lemma app_inv_length (a b x y : string) :
  String.length a = String.length b -> a +:+ x = b +:+ y -> a = b /\ x = y.
Proof.
  revert b. induction a as [|c a IH]; intros [|d b] Hlen; try discriminate.
  - by rewrite !app_empty_l.
  - rewrite !app_String. intros [= -> Htl].
    injection Hlen as Hlen. destruct (IH b Hlen Htl) as [-> ->]. done.
Qed.

Lemma String_tail (c : ascii) (x y : string) : String c x = String c y -> x = y.
Proof. by intros [= ->]. Qed.

Lemma snoc_inj (a b : string) (c d : ascii) :
  a +:+ String c "" = b +:+ String d "" -> a = b /\ c = d.
Proof.
  revert b. induction a as [|x a IH]; intros [|y b].
  - rewrite !app_empty_l. by intros [= ->].
  - rewrite app_empty_l, app_String. intros [= _ Htl]. by destruct b.
  - rewrite app_empty_l, app_String. intros [= _ Htl]. by destruct a.
  - rewrite !app_String. intros [= -> Htl]. by destruct (IH b Htl) as [-> ->].
Qed.

Lemma hex_digit_inj (n m : Z) :
  0 <= n < 16 -> 0 <= m < 16 -> UUID.hex_digit n = UUID.hex_digit m -> n = m.
Proof.
  intros Hn Hm.
  assert (exists i, (i < 16)%nat /\ n = Z.of_nat i) as (i & Hi & ->)
      by (exists (Z.to_nat n); lia).
  assert (exists j, (j < 16)%nat /\ m = Z.of_nat j) as (j & Hj & ->)
      by (exists (Z.to_nat m); lia).
  do 16 (destruct i as [|i]; [do 16 (destruct j as [|j]; [by intros [=]|]); lia|]).
  lia.
Qed.

Lemma hex_inj (k : nat) :
  forall n m, 0 <= n < 16 ^ Z.of_nat k -> 0 <= m < 16 ^ Z.of_nat k ->
              UUID.hex k n = UUID.hex k m -> n = m.
Proof.
  induction k as [|k IH]; intros n m Hn Hm; [simpl in *; lia|].
  cbn [UUID.hex]. intros [Hhi Hlo]%snoc_inj.
  rewrite Nat2Z.inj_succ, Z.pow_succ_r in Hn, Hm by lia.
  apply hex_digit_inj in Hlo; [|apply Z.mod_pos_bound; lia..].
  apply IH in Hhi;
    [|split; [apply Z.div_pos; lia | apply Z.div_lt_upper_bound; lia]..].
  rewrite (Z.div_mod n 16), (Z.div_mod m 16) by lia. by rewrite Hhi, Hlo.
Qed.

Lemma length_hex (k : nat) (n : Z) : String.length (UUID.hex k n) = k.
Proof.
  revert n. induction k as [|k IH]; intros n; [reflexivity|].
  cbn [UUID.hex]. rewrite length_app, IH. simpl. lia.
Qed.

Lemma dashed_shape (h : string) :
  String.length h = 32%nat ->
  uuid_digits (dashed h) = h /\ String.length (dashed h) = 36%nat.
Proof.
  intros Hlen.
  do 32 (destruct h as [|? h]; [discriminate|]).
  destruct h; [|discriminate]. split; reflexivity.
Qed.

Lemma uuid_str_inj (u v : Z) :
  0 <= u < 2 ^ 128 -> 0 <= v < 2 ^ 128 -> UUID.str u = UUID.str v -> u = v.
Proof.
  intros Hu Hv.
  change (UUID.str u) with (dashed (UUID.hex 32 u)).
  change (UUID.str v) with (dashed (UUID.hex 32 v)).
  intros Heq. apply (f_equal uuid_digits) in Heq.
  rewrite !(proj1 (dashed_shape _ (length_hex 32 _))) in Heq.
  by apply hex_inj in Heq.
Qed.

Lemma uuid_str_length (u : Z) : String.length (UUID.str u) = 36%nat.
Proof.
  change (UUID.str u) with (dashed (UUID.hex 32 u)).
  apply dashed_shape, length_hex.
Qed.

(** X12. A generated file name tells its parts: two names (with
    timestamps of four-digit years) are equal only if their timestamps,
    their tokens and their extensions are equal. So two uploads into the
    same directory whose tokens differ are stored at different paths,
    also when they fall into the same second. *)
Theorem distinct_tokens_distinct_paths (e1 e2 : env) (ext1 ext2 : string) :
  valid_datetime (clock_stamp e1) -> 1000 <= dt_year (clock_stamp e1) ->
  valid_datetime (clock_stamp e2) -> 1000 <= dt_year (clock_stamp e2) ->
  (unique_name e1 ext1 = unique_name e2 ext2 ->
   strftime (clock_stamp e1) = strftime (clock_stamp e2) /\
   UUID.uuid4 (urandom e1) = UUID.uuid4 (urandom e2) /\
   ext1 = ext2) /\
  (forall cfg service_name category,
      dt_year (clock_year e1) = dt_year (clock_year e2) ->
      UUID.uuid4 (urandom e1) <> UUID.uuid4 (urandom e2) ->
      stored_at cfg e1 service_name category (unique_name e1 ext1)
      <> stored_at cfg e2 service_name category (unique_name e2 ext2)).
Proof.
  intros Hv1 Hy1 Hv2 Hy2.
  assert (unique_name e1 ext1 = unique_name e2 ext2 ->
          strftime (clock_stamp e1) = strftime (clock_stamp e2) /\
          UUID.uuid4 (urandom e1) = UUID.uuid4 (urandom e2) /\
          ext1 = ext2) as Hinj.
  { unfold unique_name.
    pose proof (strftime_length _ Hv1 Hy1) as Hl1.
    pose proof (strftime_length _ Hv2 Hy2) as Hl2.
    pose proof (uuid_str_length (UUID.uuid4 (urandom e1))) as Ht1.
    pose proof (uuid_str_length (UUID.uuid4 (urandom e2))) as Ht2.
    pose proof (uuid_str_inj _ _ (uuid4_range (urandom e1)) (uuid4_range (urandom e2)))
      as Hid.
    revert Hl1 Hl2 Ht1 Ht2 Hid.
    generalize (strftime (clock_stamp e1)) (strftime (clock_stamp e2))
               (UUID.str (UUID.uuid4 (urandom e1))) (UUID.str (UUID.uuid4 (urandom e2))).
    intros s1 s2 t1 t2 Hl1 Hl2 Ht1 Ht2 Hid Heq.
    apply app_inv_length in Heq as [Hts Heq]; [|congruence].
    rewrite !(app_String "_"), !app_empty_l in Heq. apply String_tail in Heq.
    apply app_inv_length in Heq as [Htok Heq]; [|congruence].
    rewrite !(app_String "."), !app_empty_l in Heq. apply String_tail in Heq.
    auto. }
  split; [exact Hinj|].
  intros cfg service_name category Hyear Hne Hpath.
  rewrite !stored_at_folder, Hyear in Hpath.
  apply (inj (String.app _)) in Hpath. by apply Hinj in Hpath as (_ & ? & _).
Qed.

End TokenFacts.

Section HandlerMore.
Context `{Imaging}.
Variable cfg : config.
Variable e : env.

Lemma contains_In (c : ascii) (s : string) :
  PyStr.contains c s = true <-> In c (PyStr.chars s).
Proof.
  induction s as [|d s IH]; [by split|].
  cbn [PyStr.contains PyStr.chars list_ascii_of_string In].
  rewrite orb_true_iff, Ascii.eqb_eq, IH. tauto.
Qed.

Lemma segment_ok_clean (s : string) (c : ascii) :
  segment_ok s = true -> In c rejected_chars -> PyStr.contains c s = false.
Proof.
  intros [Hall _]%segment_ok_spec Hbad.
  destruct (PyStr.contains c s) eqn:Hc; [|reflexivity].
  apply contains_In, Hall in Hc. by rewrite (rejected_chars_not_allowed c Hbad) in Hc.
Qed.

Lemma segment_ok_nonempty (s : string) : segment_ok s = true -> s <> "".
Proof. by intros [_ (c & Hc & _)]%segment_ok_spec ->. Qed.

(** X13. Whenever a request succeeds or changes the file system, its
    tenant and category segments are non-empty and free of the path
    separator, the dot, the space and every other rejected character:
    the directory it worked in is <root>/<tenant>/<year>/<category>/ with
    single, plain path components, never a path that climbs out. *)
Theorem effect_has_clean_segments (service_name category : string)
    (f : UploadFile) (api_key : option string) (w w' : world)
    (r : result response) :
  upload_image cfg e service_name category f api_key w = (w', r) ->
  w' <> w \/ (exists resp, r = Ok resp) ->
  service_name <> "" /\ category <> "" /\
  forall c, In c rejected_chars ->
            PyStr.contains c service_name = false /\
            PyStr.contains c category = false.
Proof.
  rewrite upload_image_run.
  destruct (first_failure _) as [ex|] eqn:Hval.
  - intros [= <- <-] [Hw|[resp [=]]]. by destruct Hw.
  - intros _ _. apply checks_pass in Hval as (_ & _ & _ & Hs & Hc).
    split; [by apply segment_ok_nonempty|]. split; [by apply segment_ok_nonempty|].
    intros c Hbad. split; by apply segment_ok_clean.
Qed.

(** X14. A successful upload of a re-encoded image reports the length of
    one of the nine ladder encodings of the normalised image as its size,
    and that size is within [MAX_SIZE] exactly when some ladder quality
    gives an encoding within [MAX_SIZE]. *)
Theorem image_upload_size (service_name category : string)
    (f : UploadFile) (api_key : option string) (w w' : world) (resp : response) :
  upload_image cfg e service_name category f api_key w = (w', Ok resp) ->
  extension (filename f) ∈ ["jpg"; "jpeg"; "png"] ->
  exists img0 img q data,
    Image_open (content f) = Ok img0 /\
    normalise img0 = Ok img /\
    q ∈ quality_ladder /\
    save_JPEG img q = Ok data /\
    size resp = tell data /\
    (size resp <= MAX_SIZE cfg <->
     exists q' data', q' ∈ quality_ladder /\
                      save_JPEG img q' = Ok data' /\
                      tell data' <= MAX_SIZE cfg).
Proof.
  intros Hrun Hext.
  apply upload_image_Ok in Hrun
    as (_ & processed & final_ext & base & Hproc & _ & _ & _ & _ & _ & ->).
  rewrite (process_reencode _ _ _ Hext) in Hproc.
  destruct (compress_image _ _) as [out|] eqn:Hout; [|discriminate].
  injection Hproc as <- <-. cbn [size].
  destruct (compress_image_Ok_decodable _ _ _ Hout) as (img0 & img & Himg & Hnorm).
  rewrite (compress_image_decoded_result _ _ _ _ Himg Hnorm) in Hout.
  exists img0, img. fold (tell out).
  destruct (find _ _) as [q|] eqn:Hfind.
  - apply find_some in Hfind as [Hin Hstop].
    apply list_elem_of_In in Hin. unfold stops in Hstop. rewrite Hout in Hstop.
    assert (tell out <= MAX_SIZE cfg) as Hle by lia.
    exists q, out. repeat split; try done. by exists q, out.
  - assert (45 ∈ quality_ladder) as H45
        by (apply list_elem_of_In; unfold quality_ladder; simpl; tauto).
    exists 45, out. repeat split; try done.
    + intros Hle. by exists 45, out.
    + intros (q & data & Hin & Hsave & Hle). apply list_elem_of_In in Hin.
      pose proof (find_none _ _ Hfind q Hin) as Hno. unfold stops in Hno.
      rewrite Hsave in Hno. lia.
Qed.

End HandlerMore.

(** ** The further properties at concrete requests *)

Section MoreExamples.

Lemma compress_image_fails_only_in_library_witness :
  @Image_open stub_imaging la_png = Raise OSError \/
  exists img0,
    @Image_open stub_imaging la_png = Ok img0 /\
    ((@mode stub_imaging img0 ∈ ["RGBA"; "P"]
      /\ @convert stub_imaging img0 "RGB" = Raise OSError) \/
     exists img q,
       @normalise stub_imaging img0 = Ok img /\ q ∈ quality_ladder /\
       last (@compress_image_trace stub_imaging 1024 la_png).1 = Some q /\
       @save_JPEG stub_imaging img q = Raise OSError).
Proof.
  apply (proj1 (proj1 (@compress_image_fails_only_in_library stub_imaging 1024
                         la_png OSError))).
  vm_compute. reflexivity.
Defined.

Lemma compress_image_budget_witness :
  (exists q, q ∈ quality_ladder /\
             @save_JPEG stub_imaging rgb_image q = Ok (stub_encoding rgb_png 85)) /\
  (tell (stub_encoding rgb_png 85) <= 1024 <->
   exists q data, q ∈ quality_ladder /\
                  @save_JPEG stub_imaging rgb_image q = Ok data /\
                  tell data <= 1024).
Proof.
  apply (@compress_image_budget stub_imaging 1024 rgb_png rgb_image rgb_image).
  - vm_compute. reflexivity.
  - vm_compute. reflexivity.
  - vm_compute. reflexivity.
Defined.

Lemma effect_requires_credential_witness :
  exists key,
    Some "k-ukai" = Some key /\ key <> "" /\
    ALLOWED_KEYS demo_config !! "ukaisyndrome" = Some (Some key) /\
    "tryout" ∈ default [] (ALLOWED_CATEGORIES demo_config !! "ukaisyndrome").
Proof.
  apply (@effect_requires_credential stub_imaging demo_config demo_env
           "ukaisyndrome" "tryout" photo_png (Some "k-ukai") empty_world
           (run demo_config demo_env "ukaisyndrome" "tryout" photo_png (Some "k-ukai")).1
           (Ok demo_response)).
  - vm_compute. reflexivity.
  - right. exists demo_response. reflexivity.
Defined.

Lemma tenant_without_key_is_closed_witness :
  exists detail,
    run unset_config demo_env "ukaisyndrome" "tryout" photo_png (Some "guess")
    = (empty_world, Raise (HTTPException 403 detail)).
Proof.
  apply (@tenant_without_key_is_closed stub_imaging unset_config demo_env
           "ukaisyndrome" "tryout" photo_png (Some "guess") None empty_world).
  - vm_compute. reflexivity.
  - reflexivity.
Defined.

Lemma tenant_without_url_never_succeeds_witness :
  run demo_config demo_env "absensi-berkah" "wajah" photo_png (Some "k-absen")
  <> (empty_world, Ok demo_response).
Proof.
  apply (@tenant_without_url_never_succeeds stub_imaging demo_config demo_env
           "absensi-berkah" "wajah" photo_png (Some "k-absen") empty_world
           empty_world demo_response).
  vm_compute. reflexivity.
Defined.

Lemma upload_stays_in_its_directory_witness :
  dirs empty_world
  ⊆ dirs (run demo_config demo_env "ukaisyndrome" "tryout" photo_png (Some "k-ukai")).1.
Proof.
  destruct (@upload_stays_in_its_directory stub_imaging demo_config demo_env
              "ukaisyndrome" "tryout" photo_png (Some "k-ukai") empty_world
              (run demo_config demo_env "ukaisyndrome" "tryout" photo_png
                 (Some "k-ukai")).1
              (run demo_config demo_env "ukaisyndrome" "tryout" photo_png
                 (Some "k-ukai")).2)
    as (Hdirs & _).
  - vm_compute. reflexivity.
  - exact Hdirs.
Defined.

Lemma passthrough_ignores_size_limit_witness :
  @upload_image stub_imaging (with_max_upload_size demo_config 0) demo_env
    "ukaisyndrome" "tryout" report_pdf (Some "k-ukai") empty_world
  = @upload_image stub_imaging demo_config demo_env
      "ukaisyndrome" "tryout" report_pdf (Some "k-ukai") empty_world.
Proof.
  apply (@passthrough_ignores_size_limit stub_imaging demo_config demo_env
           "ukaisyndrome" "tryout" report_pdf (Some "k-ukai") empty_world 0).
  apply (bool_decide_eq_false_1 _). vm_compute. reflexivity.
Defined.

Lemma later_upload_replaces_same_path_witness :
  exists b1 b2,
    files (run demo_config demo_env "ukaisyndrome" "tryout" photo_png (Some "k-ukai")).1
    !! stored_at demo_config demo_env "ukaisyndrome" "tryout" (file demo_response)
    = Some b1 /\
    size demo_response = Z.of_nat (List.length b1) /\
    files (@upload_image stub_imaging demo_config demo_env "ukaisyndrome" "tryout"
             readme (Some "k-ukai")
             (run demo_config demo_env "ukaisyndrome" "tryout" photo_png
                (Some "k-ukai")).1).1
    !! stored_at demo_config demo_env "ukaisyndrome" "tryout" (file demo_response)
    = Some b2 /\
    size demo_response = Z.of_nat (List.length b2).
Proof.
  destruct (@later_upload_replaces_same_path stub_imaging demo_config
              demo_env demo_env "ukaisyndrome" "tryout" "ukaisyndrome" "tryout"
              photo_png readme (Some "k-ukai") (Some "k-ukai") empty_world
              (run demo_config demo_env "ukaisyndrome" "tryout" photo_png
                 (Some "k-ukai")).1
              (@upload_image stub_imaging demo_config demo_env "ukaisyndrome" "tryout"
                 readme (Some "k-ukai")
                 (run demo_config demo_env "ukaisyndrome" "tryout" photo_png
                    (Some "k-ukai")).1).1
              demo_response demo_response)
    as (b1 & b2 & H1 & Hs1 & H2 & Hs2 & _).
  - vm_compute. reflexivity.
  - vm_compute. reflexivity.
  - exists b1, b2. exact (conj H1 (conj Hs1 (conj H2 Hs2))).
Defined.

Lemma extension_of_dotted_name_witness : extension "a.tar.GZ" = "gz".
Proof.
  apply (proj1 (extension_of_dotted_name "a.tar.GZ") "a.tar" "GZ").
  - reflexivity.
  - reflexivity.
Defined.

Lemma distinct_tokens_distinct_paths_witness :
  stored_at demo_config demo_env "ukaisyndrome" "tryout" (unique_name demo_env "jpg")
  <> stored_at demo_config second_env "ukaisyndrome" "tryout"
       (unique_name second_env "jpg").
Proof.
  apply (proj2 (distinct_tokens_distinct_paths demo_env second_env "jpg" "jpg"
                  ltac:(unfold valid_datetime; simpl; lia) ltac:(simpl; lia)
                  ltac:(unfold valid_datetime; simpl; lia) ltac:(simpl; lia))).
  - reflexivity.
  - vm_compute. discriminate.
Defined.

Lemma effect_has_clean_segments_witness :
  "ukaisyndrome" <> "" /\ "tryout" <> "" /\
  forall c, In c rejected_chars ->
            PyStr.contains c "ukaisyndrome" = false /\
            PyStr.contains c "tryout" = false.
Proof.
  apply (@effect_has_clean_segments stub_imaging demo_config demo_env
           "ukaisyndrome" "tryout" photo_png (Some "k-ukai") empty_world
           (run demo_config demo_env "ukaisyndrome" "tryout" photo_png (Some "k-ukai")).1
           (Ok demo_response)).
  - vm_compute. reflexivity.
  - right. exists demo_response. reflexivity.
Defined.

Lemma image_upload_size_witness :
  exists img0 img q data,
    @Image_open stub_imaging (content photo_png) = Ok img0 /\
    @normalise stub_imaging img0 = Ok img /\
    q ∈ quality_ladder /\
    @save_JPEG stub_imaging img q = Ok data /\
    size demo_response = tell data /\
    (size demo_response <= MAX_SIZE demo_config <->
     exists q' data', q' ∈ quality_ladder /\
                      @save_JPEG stub_imaging img q' = Ok data' /\
                      tell data' <= MAX_SIZE demo_config).
Proof.
  apply (@image_upload_size stub_imaging demo_config demo_env
           "ukaisyndrome" "tryout" photo_png (Some "k-ukai") empty_world
           (run demo_config demo_env "ukaisyndrome" "tryout" photo_png (Some "k-ukai")).1
           demo_response).
  - vm_compute. reflexivity.
  - apply list_elem_of_further, list_elem_of_further, list_elem_of_here.
Defined.

End MoreExamples.
